(** * Mint eligibility controller of the StreamlinedNFTMinting component

    A shallow embedding of [src/components/StreamlinedNFTMinting.tsx]:
    the values the component reads from its hooks, the React state it
    keeps, the browser's [localStorage], and the three click handlers
    with their [try]/[catch]/[finally] blocks. *)

From Stdlib Require Import Ascii.
From stdpp Require Import base numbers strings gmap list.

Open Scope string_scope.
Open Scope Z_scope.

(** ** Data model *)

(** [selectedChain] has the TypeScript type ["ethereum" | "base"]. *)
Inductive ChainName := ethereum | base.

(** The string a chain name is when it is spliced into a template. *)
Definition chainNameStr (c : ChainName) : string :=
  match c with ethereum => "ethereum" | base => "base" end.

(** What [findChainByName] and [useAccount().chain] hand out: the component
    reads the fields [id] and [name] only. *)
Record Chain := { chain_id : Z; chain_name : string }.

(** The [data] of [useBalance]: [value] is a [bigint]. *)
Record Balance := { value : Z; decimals : Z }.

(** The callbacks the component registers with [setTimeout]. *)
Inductive TimerCallback := HideSuccess.

Record Timer := { delay : Z; callback : TimerCallback }.

(** Calls that leave the component, in the order they are made. *)
Inductive Call :=
| CallConnect
| CallSwitchChain (chainId : Z)
| CallDelay (ms : Z)
| CallSetItem (k v : string)
| CallSetTimeout (ms : Z).

(** Everything a render of the component reads and everything its handlers
    write: the five [useState] cells, the hook values, the browser store,
    the pending timers, and the calls made so far. *)
Record World := {
  selectedChain : ChainName;
  isLoading : bool;
  error : option string;
  success : bool;
  hasMinted : bool;
  isSDKLoaded : bool;
  isConnected : bool;
  address : option string;
  chain : option Chain;
  usdcBalance : option Balance;
  localStorage : gmap string string;
  timers : list Timer;
  calls : list Call
}.

(** The [useState] setters. *)
Definition setSelectedChain (c : ChainName) (w : World) : World :=
  {| selectedChain := c; isLoading := isLoading w; error := error w;
     success := success w; hasMinted := hasMinted w;
     isSDKLoaded := isSDKLoaded w; isConnected := isConnected w;
     address := address w; chain := chain w; usdcBalance := usdcBalance w;
     localStorage := localStorage w; timers := timers w; calls := calls w |}.

Definition setIsLoading (b : bool) (w : World) : World :=
  {| selectedChain := selectedChain w; isLoading := b; error := error w;
     success := success w; hasMinted := hasMinted w;
     isSDKLoaded := isSDKLoaded w; isConnected := isConnected w;
     address := address w; chain := chain w; usdcBalance := usdcBalance w;
     localStorage := localStorage w; timers := timers w; calls := calls w |}.

Definition setError (e : option string) (w : World) : World :=
  {| selectedChain := selectedChain w; isLoading := isLoading w; error := e;
     success := success w; hasMinted := hasMinted w;
     isSDKLoaded := isSDKLoaded w; isConnected := isConnected w;
     address := address w; chain := chain w; usdcBalance := usdcBalance w;
     localStorage := localStorage w; timers := timers w; calls := calls w |}.

Definition setSuccess (b : bool) (w : World) : World :=
  {| selectedChain := selectedChain w; isLoading := isLoading w;
     error := error w; success := b; hasMinted := hasMinted w;
     isSDKLoaded := isSDKLoaded w; isConnected := isConnected w;
     address := address w; chain := chain w; usdcBalance := usdcBalance w;
     localStorage := localStorage w; timers := timers w; calls := calls w |}.

Definition setHasMinted (b : bool) (w : World) : World :=
  {| selectedChain := selectedChain w; isLoading := isLoading w;
     error := error w; success := success w; hasMinted := b;
     isSDKLoaded := isSDKLoaded w; isConnected := isConnected w;
     address := address w; chain := chain w; usdcBalance := usdcBalance w;
     localStorage := localStorage w; timers := timers w; calls := calls w |}.

(** Writes to what the component does not own as React state. *)
Definition withStorage (m : gmap string string) (w : World) : World :=
  {| selectedChain := selectedChain w; isLoading := isLoading w;
     error := error w; success := success w; hasMinted := hasMinted w;
     isSDKLoaded := isSDKLoaded w; isConnected := isConnected w;
     address := address w; chain := chain w; usdcBalance := usdcBalance w;
     localStorage := m; timers := timers w; calls := calls w |}.

Definition withTimers (ts : list Timer) (w : World) : World :=
  {| selectedChain := selectedChain w; isLoading := isLoading w;
     error := error w; success := success w; hasMinted := hasMinted w;
     isSDKLoaded := isSDKLoaded w; isConnected := isConnected w;
     address := address w; chain := chain w; usdcBalance := usdcBalance w;
     localStorage := localStorage w; timers := ts; calls := calls w |}.

Definition record (c : Call) (w : World) : World :=
  {| selectedChain := selectedChain w; isLoading := isLoading w;
     error := error w; success := success w; hasMinted := hasMinted w;
     isSDKLoaded := isSDKLoaded w; isConnected := isConnected w;
     address := address w; chain := chain w; usdcBalance := usdcBalance w;
     localStorage := localStorage w; timers := timers w;
     calls := calls w ++ [c] |}.

(** What the hooks report, written by the adapters and never by the
    component. *)
Definition withAccount (conn : bool) (a : option string) (c : option Chain)
    (w : World) : World :=
  {| selectedChain := selectedChain w; isLoading := isLoading w;
     error := error w; success := success w; hasMinted := hasMinted w;
     isSDKLoaded := isSDKLoaded w; isConnected := conn;
     address := a; chain := c; usdcBalance := usdcBalance w;
     localStorage := localStorage w; timers := timers w; calls := calls w |}.

Definition withBalance (b : option Balance) (w : World) : World :=
  {| selectedChain := selectedChain w; isLoading := isLoading w;
     error := error w; success := success w; hasMinted := hasMinted w;
     isSDKLoaded := isSDKLoaded w; isConnected := isConnected w;
     address := address w; chain := chain w; usdcBalance := b;
     localStorage := localStorage w; timers := timers w; calls := calls w |}.

Definition withSDK (b : bool) (w : World) : World :=
  {| selectedChain := selectedChain w; isLoading := isLoading w;
     error := error w; success := success w; hasMinted := hasMinted w;
     isSDKLoaded := b; isConnected := isConnected w;
     address := address w; chain := chain w; usdcBalance := usdcBalance w;
     localStorage := localStorage w; timers := timers w; calls := calls w |}.

(** ** JavaScript values *)

(** An optional string in a condition: [undefined] and the empty string
    are falsy. *)
Definition truthy (a : option string) : bool :=
  match a with
  | Some s => negb (String.eqb s "")
  | None => false
  end.

(** An optional string spliced into a template literal. *)
Definition splice (a : option string) : string :=
  match a with Some s => s | None => "undefined" end.

(** [x?.id === y?.id] on chain ids. *)
Definition optZ_eqb (x y : option Z) : bool :=
  match x, y with
  | Some a, Some b => a =? b
  | None, None => true
  | _, _ => false
  end.

(** [BigInt(10 * 10**6)]: 10 USDC in the token's smallest unit. *)
Definition mintPrice : Z := 10 * 10 ^ 6.

(** The key under which a mint is remembered:
    [`minted_${contractAddress}_${address}`]. *)
Definition mintedKey (contractAddress : string) (a : option string) : string :=
  "minted_" +:+ contractAddress +:+ "_" +:+ splice a.

(** [localStorage.getItem(key) === "true"]. *)
Definition storedFlag (m : gmap string string) (k : string) : bool :=
  match m !! k with
  | Some v => String.eqb v "true"
  | None => false
  end.

(** ** Handlers as computations

    A handler runs on the world and either completes or is left by a
    thrown exception; what it wrote before the throw stays written. *)

Inductive Completion (A : Type) :=
| Normal (a : A)
| Thrown.

Arguments Normal {A} a.
Arguments Thrown {A}.

Definition M (A : Type) : Type := World -> Completion A * World.

Definition ret {A} (a : A) : M A := fun w => (Normal a, w).

Definition bind {A B} (m : M A) (k : A -> M B) : M B :=
  fun w =>
    match m w with
    | (Normal a, w1) => k a w1
    | (Thrown, w1) => (Thrown, w1)
    end.

(** A write that cannot fail. *)
Definition modify (f : World -> World) : M unit := fun w => (Normal tt, f w).

(** Sequencing of statements. *)
Notation "m1 ;> m2" := (bind m1 (fun _ => m2))
  (at level 100, right associativity).

(** [try { body } catch (err) { handler } finally { cleanup }]: the handler
    runs when the body throws, the cleanup runs in every case, and the
    statement completes as the body (or the handler) did unless the cleanup
    itself throws. *)
Definition try_catch_finally (body handler cleanup : M unit) : M unit :=
  fun w =>
    let (r1, w1) := body w in
    let (r2, w2) :=
      match r1 with
      | Normal _ => (r1, w1)
      | Thrown => handler w1
      end in
    let (r3, w3) := cleanup w2 in
    match r3 with
    | Normal _ => (r2, w3)
    | Thrown => (Thrown, w3)
    end.

(** How a call out of the component ends: the awaited promise resolves (the
    call returns), or it rejects (the call throws). *)
Inductive Outcome := Resolves | Rejects.

(** A call out of the component: it is recorded, and its outcome decides
    whether the handler goes on or jumps to its [catch]. *)
Definition external (c : Call) (o : Outcome) : M unit :=
  fun w =>
    match o with
    | Resolves => (Normal tt, record c w)
    | Rejects => (Thrown, record c w)
    end.

(** [await connect({ connector })]. *)
Definition connect (o : Outcome) : M unit := external CallConnect o.

(** [await switchChain({ chainId })]. *)
Definition switchChain (chainId : Z) (o : Outcome) : M unit :=
  external (CallSwitchChain chainId) o.

(** [await new Promise(resolve => setTimeout(resolve, ms))]: never rejects. *)
Definition sleep (ms : Z) : M unit := external (CallDelay ms) Resolves.

(** [localStorage.setItem(k, v)]: the browser stores the pair, or throws
    (quota exceeded, storage denied) and stores nothing. *)
Definition setItem (k v : string) (o : Outcome) : M unit :=
  fun w =>
    match o with
    | Resolves =>
        (Normal tt, withStorage (<[k := v]> (localStorage w)) (record (CallSetItem k v) w))
    | Rejects => (Thrown, record (CallSetItem k v) w)
    end.

(** [setTimeout(cb, ms)]. *)
Definition setTimeout (cb : TimerCallback) (ms : Z) : M unit :=
  modify (fun w =>
    withTimers (timers w ++ [{| delay := ms; callback := cb |}])
               (record (CallSetTimeout ms) w)).

(** ** The derived values of a render *)

(** [!isConnected || !address || hasMinted], the guard [handleMint] opens
    with. *)
Definition mintGuard (w : World) : bool :=
  negb (isConnected w) || negb (truthy (address w)) || hasMinted w.

Section Component.

(** The component's prop and the chain table of [~/lib/chains], which it
    imports. *)
Variable contractAddress : string.
Variable findChainByName : ChainName -> option Chain.

Definition targetChain (w : World) : option Chain :=
  findChainByName (selectedChain w).

Definition isCorrectNetwork (w : World) : bool :=
  optZ_eqb (chain_id <$> chain w) (chain_id <$> targetChain w).

(** [usdcBalance && usdcBalance.value >= BigInt(10 * 10**6)], by its
    truthiness. *)
Definition hasEnoughUSDC (w : World) : bool :=
  match usdcBalance w with
  | Some b => mintPrice <=? value b
  | None => false
  end.

Definition canMint (w : World) : bool :=
  isConnected w && isCorrectNetwork w && hasEnoughUSDC w
  && negb (hasMinted w) && negb (isLoading w).

Definition getButtonText (w : World) : string :=
  if negb (isConnected w) then "Connect Wallet"
  else if negb (isCorrectNetwork w)
       then "Switch to " +:+ splice (chain_name <$> targetChain w)
  else if hasMinted w then "Already Minted"
  else if negb (hasEnoughUSDC w) then "Insufficient USDC"
  else "Mint NFT".

(** The three handlers a click can run. *)
Inductive Handler := HandleConnectWallet | HandleSwitchNetwork | HandleMint.

Definition getButtonAction (w : World) : Handler :=
  if negb (isConnected w) then HandleConnectWallet
  else if negb (isCorrectNetwork w) then HandleSwitchNetwork
  else HandleMint.

(** The [disabled] attribute of the action button. *)
Definition buttonDisabled (w : World) : bool :=
  hasMinted w || isLoading w
  || (negb (canMint w) && isConnected w && isCorrectNetwork w
      && negb (hasEnoughUSDC w)).

(** The handler a click on the action button runs, if the button takes
    clicks at all. *)
Definition primaryAction (w : World) : option Handler :=
  if buttonDisabled w then None else Some (getButtonAction w).

(** ** The handlers *)

Definition handleConnectWallet (o : Outcome) : M unit :=
  fun w =>
    if negb (isSDKLoaded w) then
      modify (setError (Some "Farcaster SDK not loaded")) w
    else
      try_catch_finally
        (modify (setIsLoading true) ;>
         modify (setError None) ;>
         connect o)
        (modify (setError (Some "Failed to connect wallet")))
        (modify (setIsLoading false)) w.

Definition handleSwitchNetwork (o : Outcome) : M unit :=
  fun w =>
    match targetChain w with
    | None => ret tt w
    | Some tc =>
        try_catch_finally
          (modify (setIsLoading true) ;>
           modify (setError None) ;>
           switchChain (chain_id tc) o)
          (modify (setError
             (Some ("Failed to switch to " +:+ chainNameStr (selectedChain w)))))
          (modify (setIsLoading false)) w
    end.

Definition handleMint (o : Outcome) : M unit :=
  fun w =>
    if mintGuard w then ret tt w
    else
      try_catch_finally
        (modify (setIsLoading true) ;>
         modify (setError None) ;>
         sleep 2000 ;>
         setItem (mintedKey contractAddress (address w)) "true" o ;>
         modify (setHasMinted true) ;>
         modify (setSuccess true) ;>
         setTimeout HideSuccess 5000)
        (modify (setError (Some "Minting failed. Please try again.")))
        (modify (setIsLoading false)) w.

Definition runHandler (h : Handler) (o : Outcome) : M unit :=
  match h with
  | HandleConnectWallet => handleConnectWallet o
  | HandleSwitchNetwork => handleSwitchNetwork o
  | HandleMint => handleMint o
  end.

(** The effect with dependencies [address, isConnected, contractAddress]:
    it copies the stored flag of the connected wallet into [hasMinted]. *)
Definition mintedEffect (w : World) : World :=
  if truthy (address w) && isConnected w then
    setHasMinted
      (storedFlag (localStorage w) (mintedKey contractAddress (address w))) w
  else w.

(** ** The component over time

    What can happen to a mounted component, one event at a time. A click
    carries the outcome of the one fallible call its handler makes, and the
    handler runs from the click to its last statement as one step: it reads
    what the render of the click captured and writes absolute values. What
    the adapters report arrives as events of its own, and a render is taken
    together with the effect that follows it. These are the settled states
    of the component; the renders shown before an effect and the states
    with a handler in flight are those of [liveStep] further down. *)
Inductive Event :=
| Click (o : Outcome)
| SelectChain (c : ChainName)
| AccountChanged (conn : bool) (a : option string) (c : option Chain)
| BalanceFetched (b : option Balance)
| SDKLoaded (b : bool)
| TimerFired
| Reloaded.

Definition runCallback (cb : TimerCallback) (w : World) : World :=
  match cb with HideSuccess => setSuccess false w end.

Definition option_string_eqb (x y : option string) : bool :=
  match x, y with
  | Some a, Some b => String.eqb a b
  | None, None => true
  | _, _ => false
  end.

(** The first render of a mounted component: fresh React state over what
    the hooks and the browser hold. *)
Definition firstRender (sdk conn : bool) (a : option string) (c : option Chain)
    (b : option Balance) (store : gmap string string) (log : list Call)
    : World :=
  {| selectedChain := base; isLoading := false; error := None;
     success := false; hasMinted := false;
     isSDKLoaded := sdk; isConnected := conn; address := a; chain := c;
     usdcBalance := b; localStorage := store; timers := []; calls := log |}.

(** Mounting: the first render and the effect that follows it. *)
Definition mount (sdk conn : bool) (a : option string) (c : option Chain)
    (b : option Balance) (store : gmap string string) : World :=
  mintedEffect (firstRender sdk conn a c b store []).

(** The page is loaded again, up to and with the effect of its first
    render: the React state starts over, the hooks and the store stay, and
    the timers of the old instance reach nothing. *)
Definition remount (w : World) : World :=
  mintedEffect
    (firstRender (isSDKLoaded w) (isConnected w) (address w) (chain w)
       (usdcBalance w) (localStorage w) (calls w)).

Definition step (e : Event) (w : World) : World :=
  match e with
  | Click o =>
      if buttonDisabled w then w
      else snd (runHandler (getButtonAction w) o w)
  | SelectChain c =>
      if isLoading w then w else setSelectedChain c w
  | AccountChanged conn a c =>
      let w1 := withAccount conn a c w in
      if option_string_eqb a (address w) && Bool.eqb conn (isConnected w)
      then w1 else mintedEffect w1
  | BalanceFetched b => withBalance b w
  | SDKLoaded b => withSDK b w
  | TimerFired =>
      match timers w with
      | [] => w
      | t :: ts => runCallback (callback t) (withTimers ts w)
      end
  | Reloaded => remount w
  end.

Definition run (es : list Event) (w : World) : World :=
  fold_left (fun w e => step e w) es w.

End Component.

(** ** The derived state, as the design states it *)

Inductive MintUIState :=
| NeedsConnect
| NeedsNetworkSwitch
| AlreadyMinted
| InsufficientFunds
| ReadyToMint.

(** The priority list of the design, first match wins: not connected;
    active chain id other than the selected chain's; mint flag set; balance
    undefined or below the threshold; otherwise ready. *)
Definition deriveState (connected : bool) (activeId selectedId : option Z)
    (balance : option Z) (minted : bool) : MintUIState :=
  if negb connected then NeedsConnect
  else if negb (optZ_eqb activeId selectedId) then NeedsNetworkSwitch
  else if minted then AlreadyMinted
  else match balance with
       | None => InsufficientFunds
       | Some v => if v <? 10000000 then InsufficientFunds else ReadyToMint
       end.

(** The design's state of a world: its inputs read off the hooks and the
    mint flag. *)
Definition uiState (findChainByName : ChainName -> option Chain) (w : World)
    : MintUIState :=
  deriveState (isConnected w) (chain_id <$> chain w)
    (chain_id <$> findChainByName (selectedChain w))
    (value <$> usdcBalance w) (hasMinted w).

(** The label the button shows in each state. *)
Definition stateText (target : option Chain) (s : MintUIState) : string :=
  match s with
  | NeedsConnect => "Connect Wallet"
  | NeedsNetworkSwitch => "Switch to " +:+ splice (chain_name <$> target)
  | AlreadyMinted => "Already Minted"
  | InsufficientFunds => "Insufficient USDC"
  | ReadyToMint => "Mint NFT"
  end.

(** The primary action the design gives each state. *)
Definition stateAction (s : MintUIState) : option Handler :=
  match s with
  | NeedsConnect => Some HandleConnectWallet
  | NeedsNetworkSwitch => Some HandleSwitchNetwork
  | AlreadyMinted => None
  | InsufficientFunds => None
  | ReadyToMint => Some HandleMint
  end.

(** The handler bound to the button in each state, enabled or not. *)
Definition stateHandler (s : MintUIState) : Handler :=
  match s with
  | NeedsConnect => HandleConnectWallet
  | NeedsNetworkSwitch => HandleSwitchNetwork
  | _ => HandleMint
  end.

(** ** Addresses *)

Definition hexDigit (c : ascii) : bool :=
  let n := N_of_ascii c in
  ((48 <=? n) && (n <=? 57) || (65 <=? n) && (n <=? 70)
   || (97 <=? n) && (n <=? 102))%N.

Fixpoint allHex (s : string) : bool :=
  match s with
  | EmptyString => true
  | String c r => hexDigit c && allHex r
  end.

(** An address as wallets and contracts have them: ["0x"] and hexadecimal
    digits. *)
Definition isAddress (s : string) : bool :=
  match s with
  | String "0"%char (String "x"%char r) => allHex r
  | _ => false
  end.

(** ** A concrete deployment, for running the model *)

(** Modelled from the spec: the chain table behind [findChainByName]
    ([~/lib/chains]) is not among the sources. The design gives it exactly
    two supported chains, each with a chain id; the ids here are those of
    the two public networks. *)
Definition knownChains (c : ChainName) : option Chain :=
  match c with
  | ethereum => Some {| chain_id := 1; chain_name := "Ethereum" |}
  | base => Some {| chain_id := 8453; chain_name := "Base" |}
  end.

(** The contract address [app.tsx] passes to the component. *)
Definition appContract : string := "0x1234567890123456789012345678901234567890".

Definition alice : string := "0x00000000000000000000000000000000000a11ce".
Definition bob : string := "0x0000000000000000000000000000000000000b0b".

(** Alice's wallet, connected on Base with [v] units of USDC, on a fresh
    browser profile. *)
Definition aliceOnBase (v : Z) : World :=
  mount appContract true true (Some alice)
    (Some {| chain_id := 8453; chain_name := "Base" |})
    (Some {| value := v; decimals := 6 |}) ∅.

(** The same browser before any wallet is connected. *)
Definition nobody (sdk : bool) : World :=
  mount appContract sdk false None None None ∅.

(** Bob's wallet connected on Ethereum while Base is selected, with no
    USDC at all. *)
Definition bobOnEthereum : World :=
  mount appContract true true (Some bob)
    (Some {| chain_id := 1; chain_name := "Ethereum" |})
    (Some {| value := 0; decimals := 6 |}) ∅.

(** The mint flag of the render agrees with the store: when a wallet is
    connected and the store holds its flag, [hasMinted] is set. *)
Definition mintedSync (contractAddress : string) (w : World) : Prop :=
  isConnected w = true -> truthy (address w) = true ->
  storedFlag (localStorage w) (mintedKey contractAddress (address w)) = true ->
  hasMinted w = true.

(** Alice after her mint went through and she picked the other network,
    and Alice picking the other network without having minted. *)
Definition aliceMintedThenEthereum : World :=
  run appContract knownChains [Click Resolves; TimerFired; SelectChain ethereum]
    (aliceOnBase 10000000).

Definition aliceThenEthereum : World :=
  run appContract knownChains [SelectChain ethereum] (aliceOnBase 10000000).

(** What is rendered while the connect call is pending. *)
Definition connecting : World :=
  setIsLoading true (setError None (nobody true)).

(** ** What a render shows around the button *)

Section Render.

Variable findChainByName : ChainName -> option Chain.

(** The yellow network warning, with its text, when it is rendered. In
    JSX an undefined child renders as nothing. *)
Definition networkWarning (w : World) : option string :=
  if isConnected w && negb (isCorrectNetwork findChainByName w) then
    Some ("Switch to "
          +:+ default "" (chain_name <$> targetChain findChainByName w)
          +:+ " to continue")
  else None.

(** Whether "You need at least 10 USDC to mint" is rendered. *)
Definition insufficientWarning (w : World) : bool :=
  isConnected w && isCorrectNetwork findChainByName w
  && negb (hasEnoughUSDC w).

(** Whether "You have already minted from this collection" is rendered. *)
Definition mintedWarning (w : World) : bool := hasMinted w.

(** [{error && (...)}]: the error line, when it is rendered. *)
Definition errorBanner (w : World) : option string :=
  if truthy (error w) then error w else None.

(** The label next to the spinner. *)
Definition loadingText (w : World) : string :=
  if negb (isConnected w) then "Connecting..."
  else if negb (isCorrectNetwork findChainByName w) then "Switching..."
  else "Minting...".

(** What the action button reads. *)
Definition buttonLabel (w : World) : string :=
  if isLoading w then loadingText w else getButtonText findChainByName w.

(** The [variant] of the action button. *)
Inductive Variant := VariantDefault | VariantOutline.

Definition buttonVariant (w : World) : Variant :=
  if canMint findChainByName w then VariantDefault else VariantOutline.

End Render.

(** The messages the handlers can leave in [error]. *)
Definition handlerMessage (e : option string) : bool :=
  match e with
  | None => true
  | Some s =>
      String.eqb s "Farcaster SDK not loaded"
      || String.eqb s "Failed to connect wallet"
      || String.eqb s "Failed to switch to ethereum"
      || String.eqb s "Failed to switch to base"
      || String.eqb s "Minting failed. Please try again."
  end.

(** The one timer the component ever registers. *)
Definition hideSuccessTimer : Timer :=
  {| delay := 5000; callback := HideSuccess |}.

(** The mint flag is set only on the strength of a stored flag. *)
Definition mintedFromStore (contractAddress : string) (w : World) : Prop :=
  hasMinted w = true ->
  exists a, truthy a = true
    /\ storedFlag (localStorage w) (mintedKey contractAddress a) = true.

(** A chain table with no entry at all. *)
Definition noChains (c : ChainName) : option Chain := None.

(** ** The manifest route

    [GET] of [app/.well-known/farcaster.json/route.ts]. The two environment
    variables and [PROJECT_TITLE] of [~/lib/constants] are its inputs. *)

Module Manifest.

Record AccountAssociation := {
  header : string;
  payload : string;
  signature : string
}.

Record Frame := {
  version : string;
  name : string;
  iconUrl : string;
  homeUrl : string;
  imageUrl : string;
  buttonTitle : string;
  webhookUrl : string;
  splashImageUrl : string;
  splashBackgroundColor : string;
  primaryCategory : string
}.

Record Config := {
  accountAssociation : AccountAssociation;
  frame : Frame
}.

(** [process.env.NEXT_PUBLIC_URL ||
     `https://${process.env.VERCEL_PROJECT_PRODUCTION_URL}`]. *)
Definition appUrl (NEXT_PUBLIC_URL VERCEL_PROJECT_PRODUCTION_URL : option string)
    : string :=
  if truthy NEXT_PUBLIC_URL then splice NEXT_PUBLIC_URL
  else "https://" +:+ splice VERCEL_PROJECT_PRODUCTION_URL.

Definition GET (PROJECT_TITLE : string)
    (NEXT_PUBLIC_URL VERCEL_PROJECT_PRODUCTION_URL : option string) : Config :=
  let url := appUrl NEXT_PUBLIC_URL VERCEL_PROJECT_PRODUCTION_URL in
  {| accountAssociation :=
       {| header := "eyJmaWQiOjg2OTk5OSwidHlwZSI6ImN1c3RvZHkiLCJrZXkiOiIweDc2ZDUwQjBFMTQ3OWE5QmEyYkQ5MzVGMUU5YTI3QzBjNjQ5QzhDMTIifQ";
          payload := "eyJkb21haW4iOiJzZWEtc2Vhd2VsbC52ZXJjZWwuYXBwIn0";
          signature := "MHgyZmVjZGFiNjNlYjQ3ZjgyMThmYzljMWQ3NzQ0YTBmMDdkOTU3MjVjYmE2ODY4MGJlOTkwNWIzOTU0MjA4YTFjM2QzMzMzZTI1ODAxMTEyODg5YWJiN2ZiZTEwZDM2YzlkNDZkZDUwMTViYjhjMjVlMGZhYTVlYjI1MjNlOTEyZDFi" |};
     frame :=
       {| version := "1";
          name := PROJECT_TITLE;
          iconUrl := url +:+ "/icon.png";
          homeUrl := url;
          imageUrl := url +:+ "/og.png";
          buttonTitle := "Open";
          webhookUrl := url +:+ "/api/webhook";
          splashImageUrl := url +:+ "/splash.png";
          splashBackgroundColor := "#555555";
          primaryCategory := "social" |} |}.

End Manifest.

(** ** The component between events

    [step] above takes the component from one settled state to the next: a
    click runs its handler to the end, and a render is followed by its
    effect at once. The definitions here take it one commit at a time. A
    click reads the render that is shown, runs a handler up to its [await]
    and leaves the rest in flight; the awaited call settles later, after any
    other event; a render is committed, and shown, before its effect
    runs. *)

(** The rest of a handler that is waiting on its [await], with what its
    closure captured at the click and reads after the wait. *)
Inductive InFlight :=
| AwaitConnect
| AwaitSwitch (selected : ChainName)
| AwaitMint (captured : option string).

(** The committed render, whether the [hasMinted] effect of that render
    has yet to run, and the handlers in flight. *)
Record Live := {
  shown : World;
  effectPending : bool;
  inFlight : list InFlight
}.

(** A settled component: effect run, nothing in flight. *)
Definition settled (w : World) : Live :=
  {| shown := w; effectPending := false; inFlight := [] |}.

(** An awaited promise that has settled. *)
Definition await (o : Outcome) : M unit :=
  match o with
  | Resolves => ret tt
  | Rejects => fun w => (Thrown, w)
  end.

Inductive LiveEvent :=
| Clicked
| Settled (i : nat) (o : Outcome)
| ChainSelected (c : ChainName)
| AccountReported (conn : bool) (a : option string) (c : option Chain)
| EffectRan
| BalanceReported (b : option Balance)
| SDKReported (b : bool)
| HideTimerFired
| PageReloaded (sdk conn : bool) (a : option string) (c : option Chain)
    (b : option Balance).

Section LiveComponent.

Variable contractAddress : string.
Variable findChainByName : ChainName -> option Chain.

(** A handler from the click to its [await]: the guard, the two state
    writes and the call that is awaited. These statements cannot throw. *)
Definition startHandler (h : Handler) (w : World) : World * option InFlight :=
  match h with
  | HandleConnectWallet =>
      if negb (isSDKLoaded w) then
        (setError (Some "Farcaster SDK not loaded") w, None)
      else
        (record CallConnect (setError None (setIsLoading true w)),
         Some AwaitConnect)
  | HandleSwitchNetwork =>
      match targetChain findChainByName w with
      | None => (w, None)
      | Some tc =>
          (record (CallSwitchChain (chain_id tc))
             (setError None (setIsLoading true w)),
           Some (AwaitSwitch (selectedChain w)))
      end
  | HandleMint =>
      if mintGuard w then (w, None)
      else
        (record (CallDelay 2000) (setError None (setIsLoading true w)),
         Some (AwaitMint (address w)))
  end.

(** A handler from its [await] to its end, inside the same [try]: the
    awaited call settles with [o]; for the mint the delay is over and [o] is
    the outcome of the storage write that follows it. *)
Definition settleHandler (k : InFlight) (o : Outcome) : M unit :=
  match k with
  | AwaitConnect =>
      try_catch_finally
        (await o)
        (modify (setError (Some "Failed to connect wallet")))
        (modify (setIsLoading false))
  | AwaitSwitch selected =>
      try_catch_finally
        (await o)
        (modify (setError
           (Some ("Failed to switch to " +:+ chainNameStr selected))))
        (modify (setIsLoading false))
  | AwaitMint captured =>
      try_catch_finally
        (setItem (mintedKey contractAddress captured) "true" o ;>
         modify (setHasMinted true) ;>
         modify (setSuccess true) ;>
         setTimeout HideSuccess 5000)
        (modify (setError (Some "Minting failed. Please try again.")))
        (modify (setIsLoading false))
  end.

Definition withShown (w : World) (l : Live) : Live :=
  {| shown := w; effectPending := effectPending l; inFlight := inFlight l |}.

Definition liveStep (e : LiveEvent) (l : Live) : Live :=
  match e with
  | Clicked =>
      if buttonDisabled findChainByName (shown l) then l
      else
        let (w1, k) :=
          startHandler (getButtonAction findChainByName (shown l)) (shown l) in
        {| shown := w1; effectPending := effectPending l;
           inFlight := inFlight l ++ option_list k |}
  | Settled i o =>
      match inFlight l !! i with
      | None => l
      | Some k =>
          {| shown := snd (settleHandler k o (shown l));
             effectPending := effectPending l;
             inFlight := delete i (inFlight l) |}
      end
  | ChainSelected c =>
      if isLoading (shown l) then l
      else withShown (setSelectedChain c (shown l)) l
  | AccountReported conn a c =>
      {| shown := withAccount conn a c (shown l);
         effectPending :=
           effectPending l
           || negb (option_string_eqb a (address (shown l))
                    && Bool.eqb conn (isConnected (shown l)));
         inFlight := inFlight l |}
  | EffectRan =>
      if effectPending l then
        {| shown := mintedEffect contractAddress (shown l);
           effectPending := false; inFlight := inFlight l |}
      else l
  | BalanceReported b => withShown (withBalance b (shown l)) l
  | SDKReported b => withShown (withSDK b (shown l)) l
  | HideTimerFired =>
      match timers (shown l) with
      | [] => l
      | t :: ts =>
          withShown (runCallback (callback t) (withTimers ts (shown l))) l
      end
  | PageReloaded sdk conn a c b =>
      {| shown := firstRender sdk conn a c b (localStorage (shown l))
                    (calls (shown l));
         effectPending := true; inFlight := [] |}
  end.

Definition liveRun (es : list LiveEvent) (l : Live) : Live :=
  fold_left (fun l e => liveStep e l) es l.

(** The first commit of a mounted component: its effect has not run. *)
Definition liveMount (sdk conn : bool) (a : option string) (c : option Chain)
    (b : option Balance) (store : gmap string string) : Live :=
  {| shown := firstRender sdk conn a c b store [];
     effectPending := true; inFlight := [] |}.

(** The events of this section that make up one event of [step]. *)
Definition liveEvents (e : Event) (w : World) : list LiveEvent :=
  match e with
  | Click o => [Clicked; Settled 0 o]
  | SelectChain c => [ChainSelected c]
  | AccountChanged conn a c => [AccountReported conn a c; EffectRan]
  | BalanceFetched b => [BalanceReported b]
  | SDKLoaded b => [SDKReported b]
  | TimerFired => [HideTimerFired]
  | Reloaded =>
      [PageReloaded (isSDKLoaded w) (isConnected w) (address w) (chain w)
         (usdcBalance w);
       EffectRan]
  end.

End LiveComponent.

(** When a render is shown with its effect run, the mint flag agrees with
    the store for the connected wallet. *)
Definition liveSync (contractAddress : string) (l : Live) : Prop :=
  effectPending l = false -> mintedSync contractAddress (shown l).

(** Alice has minted and loads the page again, her wallet still connected
    on Base with 25 USDC: the first commit of the new page. *)
Definition aliceReloaded : Live :=
  liveRun appContract knownChains
    [EffectRan; Clicked; Settled 0 Resolves;
     PageReloaded true true (Some alice)
       (Some {| chain_id := 8453; chain_name := "Base" |})
       (Some {| value := 25000000; decimals := 6 |})]
    (liveMount true true (Some alice)
       (Some {| chain_id := 8453; chain_name := "Base" |})
       (Some {| value := 25000000; decimals := 6 |}) ∅).

(** While the success message shows, a timer that hides it is pending. *)
Definition successPending (l : Live) : Prop :=
  success (shown l) = true -> timers (shown l) <> [].

(** Alice has clicked the mint button and her mint waits on its delay. *)
Definition aliceMinting : Live :=
  liveRun appContract knownChains [EffectRan; Clicked]
    (liveMount true true (Some alice)
       (Some {| chain_id := 8453; chain_name := "Base" |})
       (Some {| value := 25000000; decimals := 6 |}) ∅).

(** Alice's mint has gone through and its message is on screen; the
    wallet changes to Bob's, who has 25 USDC on Base and clicks the mint
    button: his mint waits on its delay. *)
Definition bobMintingAfterAlice : list LiveEvent :=
  [EffectRan; Clicked; Settled 0 Resolves;
   AccountReported true (Some bob)
     (Some {| chain_id := 8453; chain_name := "Base" |});
   EffectRan; Clicked].

(** * Properties *)

(** ** The derived state *)



Section Derivation.

Variable findChainByName : ChainName -> option Chain.

Lemma hasEnoughUSDC_threshold (w : World) (b : Balance) :
  usdcBalance w = Some b ->
  hasEnoughUSDC w = true <-> 10000000 <= value b.
Proof.
  intros Hb. unfold hasEnoughUSDC, mintPrice. rewrite Hb.
  change (10 * 10 ^ 6) with 10000000. apply Z.leb_le.
Qed.

Lemma hasEnoughUSDC_pending (w : World) :
  usdcBalance w = None -> hasEnoughUSDC w = false.
Proof. intros Hb. unfold hasEnoughUSDC. now rewrite Hb. Qed.

(** The label of the button is the label of the design's state. *)
Lemma getButtonText_stateText (w : World) :
  getButtonText findChainByName w
  = stateText (targetChain findChainByName w) (uiState findChainByName w).
Proof.
  unfold getButtonText, uiState, deriveState, isCorrectNetwork, targetChain,
    hasEnoughUSDC, mintPrice.
  change (10 * 10 ^ 6) with 10000000.
  destruct (isConnected w); simpl; [|reflexivity].
  destruct (optZ_eqb _ _); simpl; [|reflexivity].
  destruct (hasMinted w); simpl; [reflexivity|].
  destruct (usdcBalance w) as [b|]; simpl; [|reflexivity].
  rewrite Z.leb_antisym. destruct (value b <? 10000000); reflexivity.
Qed.


(** The handler bound to the button follows the design's state. *)
Lemma getButtonAction_stateHandler (w : World) :
  getButtonAction findChainByName w = stateHandler (uiState findChainByName w).
Proof.
  unfold getButtonAction, uiState, deriveState, isCorrectNetwork, targetChain.
  destruct (isConnected w); simpl; [|reflexivity].
  destruct (optZ_eqb _ _); simpl; [|reflexivity].
  destruct (hasMinted w); simpl; [reflexivity|].
  destruct (usdcBalance w) as [b|]; simpl; [|reflexivity].
  destruct (value b <? 10000000); reflexivity.
Qed.

(** [x?.id === y?.id] holds exactly when the two optional ids are the
    same. *)
Lemma optZ_eqb_eq (x y : option Z) : optZ_eqb x y = true <-> x = y.
Proof.
  destruct x as [a|], y as [b|]; simpl; split; intros H;
    try discriminate H; try reflexivity.
  - apply Z.eqb_eq in H. now subst.
  - injection H as ->. apply Z.eqb_refl.
Qed.


Lemma isCorrectNetwork_ids (w : World) :
  isCorrectNetwork findChainByName w = true
  <-> chain_id <$> chain w = chain_id <$> targetChain findChainByName w.
Proof. apply optZ_eqb_eq. Qed.


End Derivation.



(** C4. Connected, on the selected chain and not yet minted: a balance of
    9_999_999 units gives InsufficientFunds and one of 10_000_000 units gives
    ReadyToMint; the test is [value >= 10 * 10^6] on integers. *)
Theorem balance_threshold_boundary
    (findChainByName : ChainName -> option Chain) (w : World) (d : Z) :
  isConnected w = true ->
  isCorrectNetwork findChainByName w = true ->
  hasMinted w = false ->
  let below := withBalance (Some {| value := 9999999; decimals := d |}) w in
  let exact := withBalance (Some {| value := 10000000; decimals := d |}) w in
  (uiState findChainByName below = InsufficientFunds
   /\ getButtonText findChainByName below = "Insufficient USDC")
  /\ (uiState findChainByName exact = ReadyToMint
      /\ getButtonText findChainByName exact = "Mint NFT")
  /\ (forall v, hasEnoughUSDC (withBalance (Some {| value := v; decimals := d |}) w)
                = true <-> 10 * 10 ^ 6 <= v).
Proof.
  intros Hc Hn Hm below exact.
  unfold isCorrectNetwork, targetChain in Hn.
  repeat split.
  - unfold uiState, deriveState; simpl. now rewrite Hc, Hn, Hm.
  - unfold getButtonText, isCorrectNetwork, targetChain; simpl.
    now rewrite Hc, Hn, Hm.
  - unfold uiState, deriveState; simpl. now rewrite Hc, Hn, Hm.
  - unfold getButtonText, isCorrectNetwork, targetChain; simpl.
    now rewrite Hc, Hn, Hm.
  - unfold hasEnoughUSDC, mintPrice; simpl. apply Z.leb_le.
  - unfold hasEnoughUSDC, mintPrice; simpl. apply Z.leb_le.
Qed.

Lemma balance_threshold_boundary_witness :
  getButtonText knownChains
    (withBalance (Some {| value := 9999999; decimals := 6 |}) (aliceOnBase 0))
  = "Insufficient USDC"
  /\ getButtonText knownChains
       (withBalance (Some {| value := 10000000; decimals := 6 |}) (aliceOnBase 0))
     = "Mint NFT".
Proof.
  destruct (balance_threshold_boundary knownChains (aliceOnBase 0) 6)
    as [[_ Hlow] [[_ Hhigh] _]]; [reflexivity | reflexivity | reflexivity |].
  split; [exact Hlow | exact Hhigh].
Defined.

(** ** What each handler leaves behind *)

Section Handlers.

Variable contractAddress : string.
Variable findChainByName : ChainName -> option Chain.

Lemma handleConnectWallet_sdk_missing (o : Outcome) (w : World) :
  isSDKLoaded w = false ->
  handleConnectWallet o w
  = (Normal tt, setError (Some "Farcaster SDK not loaded") w).
Proof. intros H. unfold handleConnectWallet. now rewrite H. Qed.

Lemma handleConnectWallet_resolves (w : World) :
  isSDKLoaded w = true ->
  handleConnectWallet Resolves w
  = (Normal tt,
     setIsLoading false
       (record CallConnect (setError None (setIsLoading true w)))).
Proof. intros H. unfold handleConnectWallet. now rewrite H. Qed.

Lemma handleConnectWallet_rejects (w : World) :
  isSDKLoaded w = true ->
  handleConnectWallet Rejects w
  = (Normal tt,
     setIsLoading false
       (setError (Some "Failed to connect wallet")
          (record CallConnect (setError None (setIsLoading true w))))).
Proof. intros H. unfold handleConnectWallet. now rewrite H. Qed.

Lemma handleSwitchNetwork_no_target (o : Outcome) (w : World) :
  targetChain findChainByName w = None ->
  handleSwitchNetwork findChainByName o w = (Normal tt, w).
Proof. intros H. unfold handleSwitchNetwork. now rewrite H. Qed.

Lemma handleSwitchNetwork_resolves (w : World) (tc : Chain) :
  targetChain findChainByName w = Some tc ->
  handleSwitchNetwork findChainByName Resolves w
  = (Normal tt,
     setIsLoading false
       (record (CallSwitchChain (chain_id tc))
          (setError None (setIsLoading true w)))).
Proof. intros H. unfold handleSwitchNetwork. now rewrite H. Qed.

Lemma handleSwitchNetwork_rejects (w : World) (tc : Chain) :
  targetChain findChainByName w = Some tc ->
  handleSwitchNetwork findChainByName Rejects w
  = (Normal tt,
     setIsLoading false
       (setError
          (Some ("Failed to switch to " +:+ chainNameStr (selectedChain w)))
          (record (CallSwitchChain (chain_id tc))
             (setError None (setIsLoading true w))))).
Proof. intros H. unfold handleSwitchNetwork. now rewrite H. Qed.

Lemma mintGuard_false (w : World) :
  isConnected w = true -> truthy (address w) = true -> hasMinted w = false ->
  mintGuard w = false.
Proof. intros H1 H2 H3. unfold mintGuard. now rewrite H1, H2, H3. Qed.

Lemma mintGuard_true (w : World) :
  isConnected w = false \/ truthy (address w) = false \/ hasMinted w = true ->
  mintGuard w = true.
Proof.
  unfold mintGuard. intros [H|[H|H]]; rewrite H; simpl.
  - reflexivity.
  - now rewrite orb_true_r.
  - now rewrite orb_true_r.
Qed.

Lemma handleMint_guarded (o : Outcome) (w : World) :
  mintGuard w = true -> handleMint contractAddress o w = (Normal tt, w).
Proof. unfold handleMint. now intros ->. Qed.

Lemma handleMint_resolves (w : World) :
  mintGuard w = false ->
  handleMint contractAddress Resolves w
  = (Normal tt,
     setIsLoading false
       (withTimers (timers w ++ [{| delay := 5000; callback := HideSuccess |}])
          (record (CallSetTimeout 5000)
             (setSuccess true
                (setHasMinted true
                   (withStorage
                      (<[mintedKey contractAddress (address w) := "true"]>
                         (localStorage w))
                      (record
                         (CallSetItem
                            (mintedKey contractAddress (address w)) "true")
                         (record (CallDelay 2000)
                            (setError None (setIsLoading true w)))))))))).
Proof. unfold handleMint. now intros ->. Qed.

Lemma handleMint_rejects (w : World) :
  mintGuard w = false ->
  handleMint contractAddress Rejects w
  = (Normal tt,
     setIsLoading false
       (setError (Some "Minting failed. Please try again.")
          (record
             (CallSetItem (mintedKey contractAddress (address w)) "true")
             (record (CallDelay 2000)
                (setError None (setIsLoading true w)))))).
Proof. unfold handleMint. now intros ->. Qed.

End Handlers.

(** ** The handlers' contracts *)

(** C3. Called while the wallet is not connected, the address is absent or
    the mint flag is set, [handleMint] returns at once and changes nothing:
    the stored flags, the in-flight flag, the error, the success flag and
    every other part of the world are as before, and no call was made. *)
Theorem handleMint_guard_noop (contractAddress : string) (o : Outcome)
    (w : World) :
  isConnected w = false \/ truthy (address w) = false \/ hasMinted w = true ->
  handleMint contractAddress o w = (Normal tt, w).
Proof. intros H. apply handleMint_guarded, mintGuard_true, H. Qed.

Lemma handleMint_guard_noop_witness :
  handleMint appContract Resolves (nobody true) = (Normal tt, nobody true).
Proof.
  apply (handleMint_guard_noop appContract Resolves (nobody true)).
  left. reflexivity.
Defined.

(** C5. When the call a handler wraps throws, the handler still completes
    normally, stores its one message in place of whatever error was there,
    and leaves the in-flight flag false. On every path of every handler the
    flag is false at exit, unless the handler returned before its [try] and
    touched neither the flag nor the outside world. *)
Theorem handlers_catch_failures (contractAddress : string)
    (findChainByName : ChainName -> option Chain) (w : World) :
  (isSDKLoaded w = true ->
   exists w', handleConnectWallet Rejects w = (Normal tt, w')
     /\ error w' = Some "Failed to connect wallet"
     /\ isLoading w' = false)
  /\ (forall tc, targetChain findChainByName w = Some tc ->
      exists w', handleSwitchNetwork findChainByName Rejects w = (Normal tt, w')
        /\ error w'
           = Some ("Failed to switch to " +:+ chainNameStr (selectedChain w))
        /\ isLoading w' = false)
  /\ (isConnected w = true -> truthy (address w) = true ->
      hasMinted w = false ->
      exists w', handleMint contractAddress Rejects w = (Normal tt, w')
        /\ error w' = Some "Minting failed. Please try again."
        /\ isLoading w' = false)
  /\ (forall h o,
      let r := runHandler contractAddress findChainByName h o w in
      fst r = Normal tt
      /\ (isLoading (snd r) = false
          \/ isLoading (snd r) = isLoading w /\ calls (snd r) = calls w)).
Proof.
  split; [|split; [|split]].
  - intros H. eexists. rewrite handleConnectWallet_rejects by exact H.
    split; [reflexivity|]. split; reflexivity.
  - intros tc H. eexists.
    rewrite (handleSwitchNetwork_rejects findChainByName w tc H).
    split; [reflexivity|]. split; reflexivity.
  - intros H1 H2 H3. eexists.
    rewrite handleMint_rejects by now apply mintGuard_false.
    split; [reflexivity|]. split; reflexivity.
  - intros h o r. subst r. destruct h; simpl.
    + destruct (isSDKLoaded w) eqn:Hs.
      * destruct o; [rewrite handleConnectWallet_resolves by exact Hs
                    |rewrite handleConnectWallet_rejects by exact Hs];
          simpl; auto.
      * rewrite handleConnectWallet_sdk_missing by exact Hs. simpl; auto.
    + destruct (targetChain findChainByName w) as [tc|] eqn:Ht.
      * destruct o; [rewrite (handleSwitchNetwork_resolves _ _ _ Ht)
                    |rewrite (handleSwitchNetwork_rejects _ _ _ Ht)];
          simpl; auto.
      * rewrite handleSwitchNetwork_no_target by exact Ht. simpl; auto.
    + destruct (mintGuard w) eqn:Hg.
      * rewrite handleMint_guarded by exact Hg. simpl; auto.
      * destruct o; [rewrite handleMint_resolves by exact Hg
                    |rewrite handleMint_rejects by exact Hg];
          simpl; auto.
Qed.

Lemma handlers_catch_failures_witness :
  (exists w', handleConnectWallet Rejects (nobody true) = (Normal tt, w')
     /\ error w' = Some "Failed to connect wallet" /\ isLoading w' = false)
  /\ (exists w', handleSwitchNetwork knownChains Rejects bobOnEthereum
                 = (Normal tt, w')
        /\ error w' = Some "Failed to switch to base"
        /\ isLoading w' = false)
  /\ (exists w', handleMint appContract Rejects bobOnEthereum = (Normal tt, w')
        /\ error w' = Some "Minting failed. Please try again."
        /\ isLoading w' = false).
Proof.
  split; [|split].
  - destruct (handlers_catch_failures appContract knownChains (nobody true))
      as (H & _).
    apply H. reflexivity.
  - destruct (handlers_catch_failures appContract knownChains bobOnEthereum)
      as (_ & H & _).
    apply (H {| chain_id := 8453; chain_name := "Base" |}). reflexivity.
  - destruct (handlers_catch_failures appContract knownChains bobOnEthereum)
      as (_ & _ & H & _).
    apply H; reflexivity.
Defined.

(** With the SDK not loaded the handler ends without a connected session,
    having made no call, and the error it shows is not the connect
    message. *)
Lemma connect_failure_other_message :
  let w' := snd (handleConnectWallet Rejects (nobody false)) in
  isConnected w' = false
  /\ calls w' = []
  /\ error w' = Some "Farcaster SDK not loaded"
  /\ error w' <> Some "Failed to connect wallet".
Proof. repeat split. discriminate. Qed.

(** C7, amended. When the adapter's connect call throws, the error shown
    is exactly "Failed to connect wallet", and connect was called once, with
    no retry; whenever the SDK is loaded the handler calls connect exactly
    once whatever the outcome. When the SDK is not loaded, the handler calls
    nothing and shows "Farcaster SDK not loaded". *)
Theorem connect_failure_message (w : World) :
  (isSDKLoaded w = true ->
   error (snd (handleConnectWallet Rejects w))
   = Some "Failed to connect wallet"
   /\ forall o, calls (snd (handleConnectWallet o w))
                = (calls w ++ [CallConnect])%list)
  /\ (isSDKLoaded w = false ->
      forall o, error (snd (handleConnectWallet o w))
                = Some "Farcaster SDK not loaded"
                /\ calls (snd (handleConnectWallet o w)) = calls w).
Proof.
  split; intros Hs.
  - split.
    + now rewrite handleConnectWallet_rejects.
    + intros [|]; [rewrite handleConnectWallet_resolves by exact Hs
                  |rewrite handleConnectWallet_rejects by exact Hs];
        reflexivity.
  - intros o. rewrite handleConnectWallet_sdk_missing by exact Hs.
    split; reflexivity.
Qed.

Lemma connect_failure_message_witness :
  error (snd (handleConnectWallet Rejects (nobody true)))
  = Some "Failed to connect wallet"
  /\ calls (snd (handleConnectWallet Rejects (nobody true))) = [CallConnect]
  /\ error (snd (handleConnectWallet Rejects (nobody false)))
     = Some "Farcaster SDK not loaded".
Proof.
  destruct (connect_failure_message (nobody true)) as [H _].
  destruct (H eq_refl) as [He Hc].
  destruct (connect_failure_message (nobody false)) as [_ H'].
  destruct (H' eq_refl Rejects) as [He' _].
  split; [exact He|]. split; [exact (Hc Rejects) | exact He'].
Defined.

(** C8. A handler whose call throws leaves everything durable as it was:
    the stored flags, the mint flag, the session, the success flag, the
    selection, the balance and the pending timers. Only the error, the
    in-flight flag and the record of calls can differ, and the handler
    completes normally. *)
Theorem failure_paths_atomic (contractAddress : string)
    (findChainByName : ChainName -> option Chain) (h : Handler) (w : World) :
  let r := runHandler contractAddress findChainByName h Rejects w in
  fst r = Normal tt
  /\ localStorage (snd r) = localStorage w
  /\ hasMinted (snd r) = hasMinted w
  /\ (isConnected (snd r) = isConnected w
      /\ address (snd r) = address w
      /\ chain (snd r) = chain w)
  /\ success (snd r) = success w
  /\ selectedChain (snd r) = selectedChain w
  /\ usdcBalance (snd r) = usdcBalance w
  /\ isSDKLoaded (snd r) = isSDKLoaded w
  /\ timers (snd r) = timers w
  /\ (isLoading (snd r) = false \/ isLoading (snd r) = isLoading w).
Proof.
  intros r. subst r. destruct h; simpl.
  - destruct (isSDKLoaded w) eqn:Hs.
    + rewrite handleConnectWallet_rejects by exact Hs. simpl.
      rewrite Hs. repeat split; auto.
    + rewrite handleConnectWallet_sdk_missing by exact Hs. simpl.
      rewrite Hs. repeat split; auto.
  - destruct (targetChain findChainByName w) as [tc|] eqn:Ht.
    + rewrite (handleSwitchNetwork_rejects _ _ _ Ht). simpl.
      repeat split; auto.
    + rewrite handleSwitchNetwork_no_target by exact Ht. simpl.
      repeat split; auto.
  - destruct (mintGuard w) eqn:Hg.
    + rewrite handleMint_guarded by exact Hg. simpl. repeat split; auto.
    + rewrite handleMint_rejects by exact Hg. simpl. repeat split; auto.
Qed.

(** C10. Connected, with an address, not yet minted: [handleMint] runs to its
    end and stores the mint flag, whatever the active chain, the selected
    chain and the balance are. Its guard reads the connection, the address
    and the mint flag, and nothing else. *)
Theorem handleMint_ignores_network_and_balance (contractAddress : string)
    (w : World) :
  isConnected w = true -> truthy (address w) = true -> hasMinted w = false ->
  (exists w', handleMint contractAddress Resolves w = (Normal tt, w')
     /\ storedFlag (localStorage w') (mintedKey contractAddress (address w))
        = true
     /\ hasMinted w' = true
     /\ success w' = true
     /\ isLoading w' = false
     /\ error w' = None)
  /\ (forall (sel : ChainName) (ch : option Chain) (bal : option Balance),
      let w0 := setSelectedChain sel
                  (withBalance bal
                     (withAccount (isConnected w) (address w) ch w)) in
      fst (handleMint contractAddress Resolves w0) = Normal tt
      /\ localStorage (snd (handleMint contractAddress Resolves w0))
         = localStorage (snd (handleMint contractAddress Resolves w))
      /\ hasMinted (snd (handleMint contractAddress Resolves w0)) = true).
Proof.
  intros Hc Ha Hm.
  assert (Hg : mintGuard w = false) by now apply mintGuard_false.
  split.
  - eexists. rewrite handleMint_resolves by exact Hg.
    split; [reflexivity|]. simpl.
    repeat split. unfold storedFlag. now rewrite lookup_insert_eq.
  - intros sel ch bal w0.
    assert (Hg0 : mintGuard w0 = false) by exact Hg.
    rewrite (handleMint_resolves contractAddress w0 Hg0).
    rewrite (handleMint_resolves contractAddress w Hg).
    repeat split.
Qed.

Lemma handleMint_ignores_network_and_balance_witness :
  isCorrectNetwork knownChains bobOnEthereum = false
  /\ hasEnoughUSDC bobOnEthereum = false
  /\ canMint knownChains bobOnEthereum = false
  /\ exists w', handleMint appContract Resolves bobOnEthereum = (Normal tt, w')
       /\ storedFlag (localStorage w') (mintedKey appContract (Some bob)) = true
       /\ hasMinted w' = true /\ success w' = true
       /\ isLoading w' = false /\ error w' = None.
Proof.
  split; [reflexivity|]. split; [reflexivity|]. split; [reflexivity|].
  destruct (handleMint_ignores_network_and_balance appContract bobOnEthereum
              eq_refl eq_refl eq_refl) as [H _].
  exact H.
Defined.

(** ** The stored flags *)

Lemma storedFlag_insert_true (m : gmap string string) (k0 k : string) :
  storedFlag m k = true -> storedFlag (<[k0 := "true"]> m) k = true.
Proof.
  unfold storedFlag. intros H.
  destruct (decide (k0 = k)) as [->|Hne].
  - now rewrite lookup_insert_eq.
  - now rewrite lookup_insert_ne.
Qed.

Lemma storedFlag_insert_eq (m : gmap string string) (k : string) :
  storedFlag (<[k := "true"]> m) k = true.
Proof. unfold storedFlag. now rewrite lookup_insert_eq. Qed.

Lemma storedFlag_insert_ne (m : gmap string string) (k0 k v : string) :
  k0 <> k -> storedFlag (<[k0 := v]> m) k = storedFlag m k.
Proof. intros H. unfold storedFlag. now rewrite lookup_insert_ne. Qed.

Lemma hexDigit_head (x : ascii) : hexDigit x = true -> x <> "_"%char.
Proof. intros H ->. discriminate H. Qed.

(** Splitting at the first underscore is unambiguous when what stands
    before it is made of hexadecimal digits. *)
Lemma append_underscore_inj (c c' a a' : string) :
  allHex c = true -> allHex c' = true ->
  c +:+ String "_" a = c' +:+ String "_" a' -> c = c' /\ a = a'.
Proof.
  revert c'. induction c as [|x c IH]; intros [|x' c'] Hc Hc' Heq;
    simpl in *.
  - injection Heq as ->. auto.
  - injection Heq as <- _. apply andb_true_iff in Hc' as [Hx _].
    now apply hexDigit_head in Hx.
  - injection Heq as -> _. apply andb_true_iff in Hc as [Hx _].
    now apply hexDigit_head in Hx.
  - injection Heq as -> Heq.
    apply andb_true_iff in Hc as [_ Hc].
    apply andb_true_iff in Hc' as [_ Hc'].
    destruct (IH c' Hc Hc' Heq) as [-> ->]. auto.
Qed.

Lemma isAddress_inv (s : string) :
  isAddress s = true -> exists r, s = String "0" (String "x" r) /\ allHex r = true.
Proof.
  destruct s as [|x [|y r]]; simpl; try discriminate.
  - destruct x as [[] [] [] [] [] [] [] []]; discriminate.
  - intros H.
    destruct x as [[] [] [] [] [] [] [] []]; try discriminate H.
    destruct y as [[] [] [] [] [] [] [] []]; try discriminate H.
    eauto.
Qed.

(** Keys of different pairs are different keys. *)
Lemma mintedKey_inj (c c' a a' : string) :
  isAddress c = true -> isAddress c' = true ->
  mintedKey c (Some a) = mintedKey c' (Some a') -> c = c' /\ a = a'.
Proof.
  intros Hc Hc' Heq.
  apply isAddress_inv in Hc as (r & -> & Hr).
  apply isAddress_inv in Hc' as (r' & -> & Hr').
  unfold mintedKey in Heq. simpl in Heq.
  injection Heq as Heq.
  destruct (append_underscore_inj r r' a a' Hr Hr' Heq) as [-> ->]. auto.
Qed.

(** On strings that are no addresses the key can coincide: the split at
    the underscore is then ambiguous. *)
Example mintedKey_collision :
  mintedKey "0x1_0x2" (Some "0x3") = mintedKey "0x1" (Some "0x2_0x3").
Proof. reflexivity. Qed.

(** C9. The flags of different (contract, wallet) pairs do not touch: a
    mint that succeeds for [(c, a)] makes the flag read back for [(c, a)]
    true and leaves the flag of every other pair of addresses as it was. *)
Theorem mint_flags_independent (c a c' a' : string) (w : World) :
  isAddress c = true -> isAddress c' = true ->
  isConnected w = true -> address w = Some a -> truthy (Some a) = true ->
  hasMinted w = false ->
  let w' := snd (handleMint c Resolves w) in
  storedFlag (localStorage w') (mintedKey c (Some a)) = true
  /\ (c' <> c \/ a' <> a ->
      storedFlag (localStorage w') (mintedKey c' (Some a'))
      = storedFlag (localStorage w) (mintedKey c' (Some a'))).
Proof.
  intros Hc Hc' Hconn Ha Ht Hm w'. subst w'.
  rewrite handleMint_resolves
    by (apply mintGuard_false; [assumption | now rewrite Ha | assumption]).
  simpl. rewrite Ha. split.
  - apply storedFlag_insert_eq.
  - intros Hne. apply storedFlag_insert_ne. intros Heq.
    destruct (mintedKey_inj c c' a a' Hc Hc' Heq) as [-> ->].
    destruct Hne as [Hne|Hne]; now apply Hne.
Qed.

Lemma mint_flags_independent_witness :
  let w' := snd (handleMint appContract Resolves (aliceOnBase 10000000)) in
  storedFlag (localStorage w') (mintedKey appContract (Some alice)) = true
  /\ storedFlag (localStorage w') (mintedKey appContract (Some bob)) = false.
Proof.
  destruct (mint_flags_independent appContract alice appContract bob
              (aliceOnBase 10000000) eq_refl eq_refl eq_refl eq_refl eq_refl
              eq_refl) as [H1 H2].
  split; [exact H1|].
  rewrite H2; [reflexivity|]. right. discriminate.
Defined.

(** ** The component over time *)

Section Lifetime.

Variable contractAddress : string.
Variable findChainByName : ChainName -> option Chain.

Abbreviation runHandler' := (runHandler contractAddress findChainByName).
Abbreviation step' := (step contractAddress findChainByName).
Abbreviation run' := (run contractAddress findChainByName).

Lemma option_string_eqb_eq (x y : option string) :
  option_string_eqb x y = true -> x = y.
Proof.
  destruct x as [a|], y as [b|]; simpl; try discriminate; auto.
  intros H. apply String.eqb_eq in H. now subst.
Qed.

(** Every exit of every handler, with what it did to the store and to the
    mint flag. *)
Lemma runHandler_cases (h : Handler) (o : Outcome) (w : World) :
  let w' := snd (runHandler' h o w) in
  isConnected w' = isConnected w /\ address w' = address w
  /\ (localStorage w' = localStorage w /\ hasMinted w' = hasMinted w
      \/ localStorage w'
         = <[mintedKey contractAddress (address w) := "true"]> (localStorage w)
         /\ hasMinted w' = true).
Proof.
  intros w'. subst w'. destruct h; simpl.
  - destruct (isSDKLoaded w) eqn:Hs.
    + destruct o; [rewrite handleConnectWallet_resolves by exact Hs
                  |rewrite handleConnectWallet_rejects by exact Hs];
        simpl; auto.
    + rewrite handleConnectWallet_sdk_missing by exact Hs. simpl; auto.
  - destruct (targetChain findChainByName w) as [tc|] eqn:Ht.
    + destruct o; [rewrite (handleSwitchNetwork_resolves _ _ _ Ht)
                  |rewrite (handleSwitchNetwork_rejects _ _ _ Ht)];
        simpl; auto.
    + rewrite handleSwitchNetwork_no_target by exact Ht. simpl; auto.
  - destruct (mintGuard w) eqn:Hg.
    + rewrite handleMint_guarded by exact Hg. simpl; auto.
    + destruct o; [rewrite handleMint_resolves by exact Hg
                  |rewrite handleMint_rejects by exact Hg];
        simpl; auto.
Qed.

Lemma runHandler_flag_mono (h : Handler) (o : Outcome) (w : World)
    (k : string) :
  storedFlag (localStorage w) k = true ->
  storedFlag (localStorage (snd (runHandler' h o w))) k = true.
Proof.
  intros H.
  destruct (runHandler_cases h o w) as (_ & _ & [[-> _]|[-> _]]).
  - exact H.
  - now apply storedFlag_insert_true.
Qed.

Lemma runHandler_sync (h : Handler) (o : Outcome) (w : World) :
  mintedSync contractAddress w ->
  mintedSync contractAddress (snd (runHandler' h o w)).
Proof.
  intros J.
  destruct (runHandler_cases h o w) as (Hc & Ha & [[Hs Hm]|[_ Hm]]).
  - unfold mintedSync. rewrite Hc, Ha, Hs, Hm. exact J.
  - intros _ _ _. exact Hm.
Qed.

Lemma mintedEffect_storage (w : World) :
  localStorage (mintedEffect contractAddress w) = localStorage w.
Proof. unfold mintedEffect. now destruct (truthy _ && _). Qed.

Lemma mintedEffect_sync (w : World) :
  mintedSync contractAddress (mintedEffect contractAddress w).
Proof.
  unfold mintedEffect, mintedSync.
  destruct (truthy (address w) && isConnected w) eqn:Hc; simpl.
  - intros _ _ H. exact H.
  - intros H1 H2 _. rewrite H1, H2 in Hc. discriminate Hc.
Qed.

Lemma step_storage (e : Event) (w : World) (k : string) :
  storedFlag (localStorage w) k = true ->
  storedFlag (localStorage (step' e w)) k = true.
Proof.
  intros H. destruct e as [o|c|conn a c|b|b| |]; simpl.
  - destruct (buttonDisabled findChainByName w); [exact H|].
    now apply runHandler_flag_mono.
  - now destruct (isLoading w).
  - destruct (_ && _); [exact H|]. now rewrite mintedEffect_storage.
  - exact H.
  - exact H.
  - destruct (timers w) as [|t ts]; [exact H|]. now destruct (callback t).
  - unfold remount. now rewrite mintedEffect_storage.
Qed.

Lemma step_sync (e : Event) (w : World) :
  mintedSync contractAddress w -> mintedSync contractAddress (step' e w).
Proof.
  intros J. destruct e as [o|c|conn a c|b|b| |]; simpl;
    [| | | | | |apply mintedEffect_sync].
  - destruct (buttonDisabled findChainByName w); [exact J|].
    now apply runHandler_sync.
  - now destruct (isLoading w).
  - destruct (option_string_eqb a (address w) && Bool.eqb conn (isConnected w))
      eqn:Hd.
    + apply andb_true_iff in Hd as [Ha Hc].
      apply option_string_eqb_eq in Ha. apply Bool.eqb_prop in Hc.
      subst a conn. exact J.
    + apply mintedEffect_sync.
  - exact J.
  - exact J.
  - destruct (timers w) as [|t ts]; [exact J|]. now destruct (callback t).
Qed.

Lemma run_storage (es : list Event) (w : World) (k : string) :
  storedFlag (localStorage w) k = true ->
  storedFlag (localStorage (run' es w)) k = true.
Proof.
  revert w. induction es as [|e es IH]; intros w H; simpl; [exact H|].
  apply IH, step_storage, H.
Qed.

Lemma run_sync (es : list Event) (w : World) :
  mintedSync contractAddress w -> mintedSync contractAddress (run' es w).
Proof.
  revert w. induction es as [|e es IH]; intros w J; simpl; [exact J|].
  apply IH, step_sync, J.
Qed.

End Lifetime.

(** ** The action button *)

(** Renders in the same state of the design with different enabled
    actions. In NeedsNetworkSwitch, with nothing in flight and no error
    shown, a click switches the network for a wallet that has not minted and
    the button takes no click for one that has. In NeedsConnect a click
    connects, unless a call is in flight. So no function of the derived
    state gives the enabled action. *)
Lemma primary_action_not_by_state :
  (uiState knownChains aliceMintedThenEthereum = NeedsNetworkSwitch
   /\ uiState knownChains aliceThenEthereum = NeedsNetworkSwitch
   /\ isLoading aliceMintedThenEthereum = false
   /\ isLoading aliceThenEthereum = false
   /\ primaryAction knownChains aliceMintedThenEthereum = None
   /\ primaryAction knownChains aliceThenEthereum = Some HandleSwitchNetwork)
  /\ (uiState knownChains connecting = NeedsConnect
      /\ uiState knownChains (nobody true) = NeedsConnect
      /\ primaryAction knownChains connecting = None
      /\ primaryAction knownChains (nobody true) = Some HandleConnectWallet)
  /\ ~ (exists f : MintUIState -> option Handler,
          forall w, primaryAction knownChains w = f (uiState knownChains w)).
Proof.
  split; [repeat split; reflexivity|].
  split; [repeat split; reflexivity|].
  intros [f Hf].
  pose proof (Hf aliceMintedThenEthereum) as H1.
  pose proof (Hf aliceThenEthereum) as H2.
  vm_compute in H1, H2. congruence.
Qed.

Section Button.

Variable findChainByName : ChainName -> option Chain.

Lemma buttonDisabled_idle (w : World) :
  isLoading w = false -> hasMinted w = false ->
  buttonDisabled findChainByName w
  = isConnected w && isCorrectNetwork findChainByName w
    && negb (hasEnoughUSDC w).
Proof.
  intros Hl Hm. unfold buttonDisabled, canMint. rewrite Hl, Hm. simpl.
  destruct (isConnected w), (isCorrectNetwork findChainByName w),
    (hasEnoughUSDC w); reflexivity.
Qed.

(** C6, amended. At most one action is enabled, the one handler bound to
    the button, and that handler is a function of the derived state alone.
    While an action is in flight, and in state AlreadyMinted, the button is
    disabled. With nothing in flight and the mint flag not set, the enabled
    action is a function of the derived state alone: connect for
    NeedsConnect, switch for NeedsNetworkSwitch, mint for ReadyToMint, none
    for InsufficientFunds. *)
Theorem primary_action_by_state (w : World) :
  let s := uiState findChainByName w in
  getButtonAction findChainByName w = stateHandler s
  /\ (forall h, primaryAction findChainByName w = Some h -> h = stateHandler s)
  /\ (isLoading w = true -> primaryAction findChainByName w = None)
  /\ (s = AlreadyMinted -> primaryAction findChainByName w = None)
  /\ (isLoading w = false -> hasMinted w = false ->
      primaryAction findChainByName w = stateAction s).
Proof.
  intros s. subst s.
  split; [apply getButtonAction_stateHandler|].
  split; [|split; [|split]].
  - unfold primaryAction. intros h.
    destruct (buttonDisabled findChainByName w); [discriminate|].
    intros [= <-]. apply getButtonAction_stateHandler.
  - intros Hl. unfold primaryAction, buttonDisabled. rewrite Hl.
    now rewrite orb_true_r.
  - unfold uiState, deriveState, primaryAction, buttonDisabled.
    destruct (isConnected w); simpl; [|discriminate].
    destruct (optZ_eqb _ _); simpl; [|discriminate].
    destruct (hasMinted w); simpl; [reflexivity|].
    destruct (usdcBalance w) as [b|]; simpl; [|discriminate].
    destruct (value b <? 10000000); discriminate.
  - intros Hl Hm. unfold primaryAction.
    rewrite buttonDisabled_idle by assumption.
    unfold getButtonAction, uiState, deriveState, isCorrectNetwork,
      targetChain, hasEnoughUSDC, mintPrice.
    change (10 * 10 ^ 6) with 10000000. rewrite Hm.
    destruct (isConnected w); simpl; [|reflexivity].
    destruct (optZ_eqb _ _); simpl; [|reflexivity].
    destruct (usdcBalance w) as [b|]; simpl; [|reflexivity].
    rewrite Z.leb_antisym. destruct (value b <? 10000000); reflexivity.
Qed.

End Button.

Lemma primary_action_by_state_witness :
  primaryAction knownChains (nobody true) = Some HandleConnectWallet
  /\ primaryAction knownChains aliceThenEthereum = Some HandleSwitchNetwork
  /\ primaryAction knownChains (aliceOnBase 9999999) = None
  /\ primaryAction knownChains (aliceOnBase 10000000) = Some HandleMint
  /\ primaryAction knownChains
       (run appContract knownChains [Click Resolves] (aliceOnBase 10000000))
     = None.
Proof.
  destruct (primary_action_by_state knownChains (nobody true))
    as (_ & _ & _ & _ & H1).
  destruct (primary_action_by_state knownChains aliceThenEthereum)
    as (_ & _ & _ & _ & H2).
  destruct (primary_action_by_state knownChains (aliceOnBase 9999999))
    as (_ & _ & _ & _ & H3).
  destruct (primary_action_by_state knownChains (aliceOnBase 10000000))
    as (_ & _ & _ & _ & H4).
  destruct (primary_action_by_state knownChains
              (run appContract knownChains [Click Resolves]
                 (aliceOnBase 10000000)))
    as (_ & _ & _ & H5 & _).
  split; [exact (H1 eq_refl eq_refl)|].
  split; [exact (H2 eq_refl eq_refl)|].
  split; [exact (H3 eq_refl eq_refl)|].
  split; [exact (H4 eq_refl eq_refl)|].
  exact (H5 eq_refl).
Defined.

(** * Further properties of the component *)

(** ** The button and the warnings of one render *)

Section RenderFacts.

Variable findChainByName : ChainName -> option Chain.

(** Case analysis on everything a render branches on. *)
Ltac render_cases w :=
  unfold primaryAction, buttonDisabled, getButtonAction, canMint,
    buttonVariant, buttonLabel, loadingText, getButtonText,
    insufficientWarning, networkWarning, mintedWarning;
  destruct (isConnected w), (isCorrectNetwork findChainByName w),
    (hasEnoughUSDC w), (hasMinted w), (isLoading w); simpl.

Ltac warning_case :=
  repeat split; intros;
  repeat match goal with
         | H : is_Some None |- _ => destruct H as [? H]; discriminate H
         | H : Some _ = Some _ |- _ => injection H as <-
         end;
  try discriminate; try reflexivity; try (eexists; reflexivity); auto.

(** X1. The button is in its filled variant exactly when a click on it
    runs [handleMint], and exactly when it reads "Mint NFT". *)
Theorem canMint_iff_mint_enabled (w : World) :
  (canMint findChainByName w = true
   <-> primaryAction findChainByName w = Some HandleMint)
  /\ (canMint findChainByName w = true
      <-> buttonLabel findChainByName w = "Mint NFT")
  /\ (buttonVariant findChainByName w = VariantDefault
      <-> canMint findChainByName w = true).
Proof.
  unfold buttonVariant at 1.
  destruct (canMint findChainByName w) eqn:Hcm; revert Hcm;
    render_cases w; intros Hcm; try discriminate Hcm;
    (split; [|split]); split; intros H;
    try reflexivity; try discriminate H.
Qed.

(** X2. The [!canMint] conjunct of the [disabled] expression changes
    nothing: the button is disabled exactly when the wallet has minted, a
    call is in flight, or the insufficient-balance warning is on screen. *)
Theorem buttonDisabled_by_warning (w : World) :
  buttonDisabled findChainByName w
  = hasMinted w || isLoading w || insufficientWarning findChainByName w.
Proof. render_cases w; reflexivity. Qed.

(** X3. The warnings follow the derived state. The network warning is on
    screen exactly in state NeedsNetworkSwitch, never together with the
    insufficient-balance warning, and when the selected chain has an entry
    it reads as the button does, followed by " to continue". The
    insufficient-balance warning shows in state InsufficientFunds and
    otherwise only in state AlreadyMinted; the already-minted warning shows
    in state AlreadyMinted. *)
Theorem warnings_by_state (w : World) :
  let s := uiState findChainByName w in
  (is_Some (networkWarning findChainByName w) <-> s = NeedsNetworkSwitch)
  /\ (forall t, networkWarning findChainByName w = Some t ->
        insufficientWarning findChainByName w = false
        /\ forall tc, targetChain findChainByName w = Some tc ->
             t = getButtonText findChainByName w +:+ " to continue")
  /\ (s = InsufficientFunds -> insufficientWarning findChainByName w = true)
  /\ (insufficientWarning findChainByName w = true ->
        s = InsufficientFunds \/ s = AlreadyMinted)
  /\ (s = AlreadyMinted -> mintedWarning w = true).
Proof.
  intros s. subst s.
  split; [|split].
  2:{ intros t H. unfold networkWarning in H.
      destruct (isConnected w && negb (isCorrectNetwork findChainByName w))
        eqn:E; [|discriminate H].
      injection H as <-. apply andb_true_iff in E as [Hc Hn].
      apply negb_true_iff in Hn. split.
      - unfold insufficientWarning. now rewrite Hc, Hn.
      - intros tc Ht. unfold getButtonText. now rewrite Hc, Hn, Ht. }
  all: unfold uiState, deriveState, networkWarning, insufficientWarning,
    mintedWarning, isCorrectNetwork, targetChain, hasEnoughUSDC, mintPrice;
    change (10 * 10 ^ 6) with 10000000.
  all: destruct (isConnected w); simpl; [|warning_case].
  all: destruct (optZ_eqb _ _); simpl; [|warning_case].
  all: destruct (hasMinted w); simpl; [warning_case|].
  all: destruct (usdcBalance w) as [b|]; simpl; [|warning_case].
  all: try rewrite Z.leb_antisym.
  all: destruct (value b <? 10000000); simpl; warning_case.
Qed.

End RenderFacts.

(** ** Clicks and what they run *)

Section ClickFacts.

Variable contractAddress : string.
Variable findChainByName : ChainName -> option Chain.

Abbreviation click o := (step contractAddress findChainByName (Click o)).

(** Neither [handleConnectWallet] nor [handleSwitchNetwork] writes the
    store or the mint flag, or registers a timer. *)
Lemma handleConnectWallet_frame (o : Outcome) (w : World) :
  let w' := snd (handleConnectWallet o w) in
  localStorage w' = localStorage w /\ hasMinted w' = hasMinted w
  /\ success w' = success w /\ timers w' = timers w.
Proof.
  simpl. destruct (isSDKLoaded w) eqn:Hs.
  - destruct o; [rewrite handleConnectWallet_resolves by exact Hs
                |rewrite handleConnectWallet_rejects by exact Hs];
      repeat split.
  - rewrite handleConnectWallet_sdk_missing by exact Hs. repeat split.
Qed.

Lemma handleSwitchNetwork_frame (o : Outcome) (w : World) :
  let w' := snd (handleSwitchNetwork findChainByName o w) in
  localStorage w' = localStorage w /\ hasMinted w' = hasMinted w
  /\ success w' = success w /\ timers w' = timers w.
Proof.
  simpl. destruct (targetChain findChainByName w) as [tc|] eqn:Ht.
  - destruct o; [rewrite (handleSwitchNetwork_resolves _ _ _ Ht)
                |rewrite (handleSwitchNetwork_rejects _ _ _ Ht)];
      repeat split.
  - rewrite handleSwitchNetwork_no_target by exact Ht. repeat split.
Qed.

Lemma canMint_inv (w : World) :
  canMint findChainByName w = true ->
  isConnected w = true /\ isCorrectNetwork findChainByName w = true
  /\ hasEnoughUSDC w = true /\ hasMinted w = false /\ isLoading w = false.
Proof.
  unfold canMint.
  destruct (isConnected w), (isCorrectNetwork findChainByName w),
    (hasEnoughUSDC w), (hasMinted w), (isLoading w);
    simpl; intros H; try discriminate H; repeat split.
Qed.

Lemma canMint_click (o : Outcome) (w : World) :
  canMint findChainByName w = true ->
  click o w = snd (handleMint contractAddress o w).
Proof.
  intros H. apply canMint_inv in H as (Hc & Hn & He & Hm & Hl).
  simpl. unfold buttonDisabled, getButtonAction, canMint.
  now rewrite Hc, Hn, He, Hm, Hl.
Qed.

Lemma canMint_primaryAction (w : World) :
  canMint findChainByName w = true ->
  primaryAction findChainByName w = Some HandleMint.
Proof.
  intros H. apply canMint_inv in H as (Hc & Hn & He & Hm & Hl).
  unfold primaryAction, buttonDisabled, getButtonAction, canMint.
  now rewrite Hc, Hn, He, Hm, Hl.
Qed.

(** X4. A handler whose call resolves leaves no error on screen, whatever
    was shown before, and the in-flight flag down. [handleSwitchNetwork]
    asks the adapter for the id of the selected chain's entry, once,
    whether the call resolves or not. *)
Theorem resolved_call_clears_error (w : World) :
  (isSDKLoaded w = true ->
   let w' := snd (handleConnectWallet Resolves w) in
   error w' = None /\ isLoading w' = false)
  /\ (forall tc, targetChain findChainByName w = Some tc ->
      (let w' := snd (handleSwitchNetwork findChainByName Resolves w) in
       error w' = None /\ isLoading w' = false)
      /\ forall o,
         calls (snd (handleSwitchNetwork findChainByName o w))
         = (calls w ++ [CallSwitchChain (chain_id tc)])%list).
Proof.
  split.
  - intros Hs. rewrite handleConnectWallet_resolves by exact Hs.
    split; reflexivity.
  - intros tc Ht. split.
    + rewrite (handleSwitchNetwork_resolves _ _ _ Ht). split; reflexivity.
    + intros [|]; [rewrite (handleSwitchNetwork_resolves _ _ _ Ht)
                  |rewrite (handleSwitchNetwork_rejects _ _ _ Ht)];
        reflexivity.
Qed.

(** X5. Through the button, nothing is minted unless the wallet is
    connected on the selected network with at least 10 USDC, has not
    minted, and no call is in flight: when [canMint] is false a click
    leaves the store and the mint flag as they were. *)
Theorem click_mints_only_when_canMint (o : Outcome) (w : World) :
  canMint findChainByName w = false ->
  localStorage (click o w) = localStorage w
  /\ hasMinted (click o w) = hasMinted w
  /\ success (click o w) = success w.
Proof.
  intros Hcm. simpl.
  destruct (buttonDisabled findChainByName w) eqn:Hd; [repeat split|].
  unfold buttonDisabled in Hd. unfold getButtonAction.
  unfold canMint in Hcm, Hd.
  destruct (isConnected w); simpl.
  2:{ destruct (handleConnectWallet_frame o w) as (? & ? & ? & _). auto. }
  destruct (isCorrectNetwork findChainByName w); simpl.
  2:{ destruct (handleSwitchNetwork_frame o w) as (? & ? & ? & _). auto. }
  destruct (hasEnoughUSDC w), (hasMinted w), (isLoading w);
    simpl in *; discriminate.
Qed.

(** X6. A click on the enabled mint button by a wallet with an address
    waits 2000 ms, writes the wallet's key with the value "true", sets the
    mint and success flags, clears the error and registers the 5000 ms timer,
    in this order and nothing else; the button is disabled afterwards. *)
Theorem mint_click_effects (w : World) :
  canMint findChainByName w = true -> truthy (address w) = true ->
  let k := mintedKey contractAddress (address w) in
  let w' := click Resolves w in
  calls w'
  = (calls w ++ [CallDelay 2000; CallSetItem k "true"; CallSetTimeout 5000])%list
  /\ localStorage w' = <[k := "true"]> (localStorage w)
  /\ hasMinted w' = true /\ success w' = true /\ error w' = None
  /\ isLoading w' = false
  /\ timers w' = (timers w ++ [hideSuccessTimer])%list
  /\ primaryAction findChainByName w' = None.
Proof.
  intros Hcm Ha k w'. subst k w'. rewrite canMint_click by exact Hcm.
  apply canMint_inv in Hcm as (Hc & Hn & He & Hm & Hl).
  rewrite handleMint_resolves by now apply mintGuard_false.
  simpl. rewrite <- !app_assoc. repeat split.
Qed.

(** X7. A mint whose storage write throws can be tried again: the delay
    and the write were attempted, no timer was registered, the button still
    offers the mint, and a second click whose write goes through stores
    the flag and takes the message off the screen. *)
Theorem mint_click_retry (w : World) :
  canMint findChainByName w = true -> truthy (address w) = true ->
  let k := mintedKey contractAddress (address w) in
  let failed := click Rejects w in
  let retried := click Resolves failed in
  (calls failed = (calls w ++ [CallDelay 2000; CallSetItem k "true"])%list
   /\ timers failed = timers w
   /\ error failed = Some "Minting failed. Please try again."
   /\ canMint findChainByName failed = true
   /\ primaryAction findChainByName failed = Some HandleMint)
  /\ (storedFlag (localStorage retried) k = true
      /\ hasMinted retried = true
      /\ error retried = None).
Proof.
  intros Hcm Ha k failed retried.
  assert (Hcm' := Hcm).
  apply canMint_inv in Hcm' as (Hc & Hn & He & Hm & Hl).
  assert (Hf : failed
    = setIsLoading false
        (setError (Some "Minting failed. Please try again.")
           (record (CallSetItem k "true")
              (record (CallDelay 2000)
                 (setError None (setIsLoading true w)))))).
  { subst failed k. rewrite canMint_click by exact Hcm.
    now rewrite handleMint_rejects by now apply mintGuard_false. }
  assert (Hcf : canMint findChainByName failed = true).
  { rewrite Hf. unfold canMint, isCorrectNetwork, targetChain, hasEnoughUSDC in *.
    simpl. now rewrite Hc, Hn, He, Hm. }
  split.
  - rewrite Hf at 1 2 3. simpl. rewrite <- !app_assoc.
    repeat split; [exact Hcf|].
    apply canMint_primaryAction, Hcf.
  - subst retried. rewrite canMint_click by exact Hcf.
    rewrite handleMint_resolves
      by (rewrite Hf; apply mintGuard_false; simpl; assumption).
    simpl. rewrite Hf. simpl. repeat split. apply storedFlag_insert_eq.
Qed.

(** X8. One mint per wallet and instance: once [handleMint] has gone
    through, calling it again changes nothing, whatever the outcome of the
    call would be, and no number of clicks on the button changes anything
    either. *)
Theorem mint_once (w : World) :
  isConnected w = true -> truthy (address w) = true -> hasMinted w = false ->
  let minted := snd (handleMint contractAddress Resolves w) in
  (forall o, handleMint contractAddress o minted = (Normal tt, minted))
  /\ forall os : list Outcome,
       run contractAddress findChainByName (map Click os) minted = minted.
Proof.
  intros Hc Ha Hm minted.
  assert (Hmin : hasMinted minted = true).
  { subst minted. now rewrite handleMint_resolves by now apply mintGuard_false. }
  split.
  - intros o. apply handleMint_guarded. unfold mintGuard. rewrite Hmin.
    now rewrite orb_true_r.
  - intros os. induction os as [|o os IH]; simpl; [reflexivity|].
    unfold buttonDisabled. rewrite Hmin. simpl. exact IH.
Qed.

(** X9. A selected chain without an entry in the chain table. With a
    wallet connected on some chain, the button reads "Switch to undefined"
    and is enabled, and a click on it does nothing at all. With a wallet
    that reports no chain either, the two undefined ids compare equal, the
    network counts as the right one and the button is bound to the mint. *)
Theorem switch_without_target (w : World) :
  targetChain findChainByName w = None ->
  isConnected w = true -> hasMinted w = false -> isLoading w = false ->
  (forall ch, chain w = Some ch ->
     getButtonText findChainByName w = "Switch to undefined"
     /\ primaryAction findChainByName w = Some HandleSwitchNetwork
     /\ forall o, click o w = w)
  /\ (chain w = None ->
      isCorrectNetwork findChainByName w = true
      /\ networkWarning findChainByName w = None
      /\ getButtonAction findChainByName w = HandleMint).
Proof.
  intros Ht Hc Hm Hl. split.
  - intros ch Hch.
    assert (Hn : isCorrectNetwork findChainByName w = false).
    { unfold isCorrectNetwork. now rewrite Ht, Hch. }
    assert (Hd : buttonDisabled findChainByName w = false).
    { unfold buttonDisabled, canMint. now rewrite Hm, Hl, Hc, Hn. }
    split; [|split].
    + unfold getButtonText. now rewrite Hc, Hn, Ht.
    + unfold primaryAction, getButtonAction. now rewrite Hd, Hc, Hn.
    + intros o. simpl. rewrite Hd. unfold getButtonAction. rewrite Hc, Hn.
      simpl. now rewrite handleSwitchNetwork_no_target.
  - intros Hch.
    assert (Hn : isCorrectNetwork findChainByName w = true).
    { unfold isCorrectNetwork. now rewrite Ht, Hch. }
    split; [exact Hn|]. split.
    + unfold networkWarning. now rewrite Hc, Hn.
    + unfold getButtonAction. now rewrite Hc, Hn.
Qed.

(** X18. A connect click before the SDK has loaded shows "Farcaster SDK not
    loaded", calls nothing and leaves the button enabled; once the SDK is
    loaded, the next click makes the one connect call, and when that
    resolves the message is gone. *)
Theorem connect_after_sdk_load (o : Outcome) (w : World) :
  isConnected w = false -> hasMinted w = false -> isLoading w = false ->
  isSDKLoaded w = false ->
  let early := click o w in
  let late := click Resolves (step contractAddress findChainByName
                                (SDKLoaded true) early) in
  (error early = Some "Farcaster SDK not loaded"
   /\ calls early = calls w
   /\ isLoading early = false
   /\ primaryAction findChainByName early = Some HandleConnectWallet)
  /\ (calls late = (calls w ++ [CallConnect])%list
      /\ error late = None
      /\ isLoading late = false).
Proof.
  intros Hc Hm Hl Hs early late.
  assert (He : early = setError (Some "Farcaster SDK not loaded") w).
  { subst early. simpl. unfold buttonDisabled, canMint, getButtonAction.
    rewrite Hm, Hl, Hc. simpl.
    now rewrite handleConnectWallet_sdk_missing. }
  split.
  - rewrite He. simpl.
    unfold primaryAction, buttonDisabled, canMint, getButtonAction. simpl.
    rewrite Hm, Hl, Hc. repeat split.
  - subst late. rewrite He. simpl.
    unfold buttonDisabled, canMint, getButtonAction. simpl.
    rewrite Hm, Hl, Hc. repeat split.
Qed.

End ClickFacts.

Lemma resolved_call_clears_error_witness :
  error (snd (handleConnectWallet Resolves
                (setError (Some "Failed to connect wallet") (nobody true))))
  = None
  /\ calls (snd (handleSwitchNetwork knownChains Rejects bobOnEthereum))
     = [CallSwitchChain 8453].
Proof.
  destruct (resolved_call_clears_error knownChains
              (setError (Some "Failed to connect wallet") (nobody true)))
    as [H1 _].
  destruct (resolved_call_clears_error knownChains bobOnEthereum) as [_ H2].
  destruct (H2 {| chain_id := 8453; chain_name := "Base" |} eq_refl)
    as [_ H3].
  split; [exact (proj1 (H1 eq_refl)) | exact (H3 Rejects)].
Defined.

Lemma click_mints_only_when_canMint_witness :
  localStorage (step appContract knownChains (Click Resolves) (aliceOnBase 9999999))
  = localStorage (aliceOnBase 9999999)
  /\ hasMinted (step appContract knownChains (Click Resolves) bobOnEthereum)
     = false.
Proof.
  destruct (click_mints_only_when_canMint appContract knownChains Resolves
              (aliceOnBase 9999999) eq_refl) as (H1 & _).
  destruct (click_mints_only_when_canMint appContract knownChains Resolves
              bobOnEthereum eq_refl) as (_ & H2 & _).
  split; [exact H1 | exact H2].
Defined.

Lemma mint_click_effects_witness :
  let w' := step appContract knownChains (Click Resolves) (aliceOnBase 10000000) in
  calls w'
  = [CallDelay 2000; CallSetItem (mintedKey appContract (Some alice)) "true";
     CallSetTimeout 5000]
  /\ hasMinted w' = true
  /\ primaryAction knownChains w' = None.
Proof.
  destruct (mint_click_effects appContract knownChains (aliceOnBase 10000000)
              eq_refl eq_refl) as (H1 & _ & H2 & _ & _ & _ & _ & H3).
  split; [exact H1|]. split; [exact H2 | exact H3].
Defined.

Lemma mint_click_retry_witness :
  let failed := step appContract knownChains (Click Rejects) (aliceOnBase 10000000) in
  let retried := step appContract knownChains (Click Resolves) failed in
  error failed = Some "Minting failed. Please try again."
  /\ primaryAction knownChains failed = Some HandleMint
  /\ hasMinted retried = true /\ error retried = None.
Proof.
  destruct (mint_click_retry appContract knownChains (aliceOnBase 10000000)
              eq_refl eq_refl) as ((_ & _ & H1 & _ & H2) & (_ & H3 & H4)).
  split; [exact H1|]. split; [exact H2|]. split; [exact H3 | exact H4].
Defined.

Lemma mint_once_witness :
  let minted := snd (handleMint appContract Resolves (aliceOnBase 10000000)) in
  handleMint appContract Rejects minted = (Normal tt, minted)
  /\ run appContract knownChains [Click Resolves; Click Rejects] minted = minted.
Proof.
  destruct (mint_once appContract knownChains (aliceOnBase 10000000)
              eq_refl eq_refl eq_refl) as [H1 H2].
  split; [exact (H1 Rejects) | exact (H2 [Resolves; Rejects])].
Defined.

Lemma switch_without_target_witness :
  getButtonText noChains bobOnEthereum = "Switch to undefined"
  /\ step appContract noChains (Click Resolves) bobOnEthereum = bobOnEthereum.
Proof.
  destruct (switch_without_target appContract noChains bobOnEthereum
              eq_refl eq_refl eq_refl eq_refl) as [H _].
  destruct (H {| chain_id := 1; chain_name := "Ethereum" |} eq_refl)
    as (H1 & _ & H2).
  split; [exact H1 | exact (H2 Resolves)].
Defined.

Lemma connect_after_sdk_load_witness :
  let early := step appContract knownChains (Click Rejects) (nobody false) in
  let late := step appContract knownChains (Click Resolves)
                (step appContract knownChains (SDKLoaded true) early) in
  error early = Some "Farcaster SDK not loaded"
  /\ calls late = [CallConnect] /\ error late = None.
Proof.
  destruct (connect_after_sdk_load appContract knownChains Rejects
              (nobody false) eq_refl eq_refl eq_refl eq_refl)
    as ((H1 & _) & (H2 & H3 & _)).
  split; [exact H1|]. split; [exact H2 | exact H3].
Defined.

(** ** Wallets coming and going *)

Lemma append_inv_head (s x y : string) : s +:+ x = s +:+ y -> x = y.
Proof.
  induction s as [|c s IH]; simpl; intros H; [exact H|].
  injection H as H. exact (IH H).
Qed.

(** For one contract, two wallets share a key only if they are the same
    string. *)
Lemma mintedKey_wallet_inj (c a b : string) :
  mintedKey c (Some a) = mintedKey c (Some b) -> a = b.
Proof.
  unfold mintedKey, splice. intros H.
  do 3 apply append_inv_head in H. exact H.
Qed.

Lemma option_string_eqb_ne (a b : string) :
  a <> b -> option_string_eqb (Some a) (Some b) = false.
Proof. intros H. simpl. now apply String.eqb_neq. Qed.

Section WalletFacts.

Variable contractAddress : string.
Variable findChainByName : ChainName -> option Chain.

Abbreviation step' := (step contractAddress findChainByName).
Abbreviation run' := (run contractAddress findChainByName).

(** A change to a wallet with another address runs the effect. *)
Lemma step_to_other_wallet (w : World) (a b : string) (ch : option Chain) :
  address w = Some a -> b <> a -> truthy (Some b) = true ->
  step' (AccountChanged true (Some b) ch) w
  = setHasMinted
      (storedFlag (localStorage w) (mintedKey contractAddress (Some b)))
      (withAccount true (Some b) ch w).
Proof.
  intros Ha Hne Hb. unfold step. rewrite Ha.
  rewrite (option_string_eqb_ne b a Hne). rewrite andb_false_l.
  unfold mintedEffect.
  change (address (withAccount true (Some b) ch w)) with (Some b).
  change (isConnected (withAccount true (Some b) ch w)) with true.
  now rewrite Hb.
Qed.

(** X10. The mint flag outlives the session. When the wallet disconnects
    after a mint, the effect does not run, so the button reads "Connect
    Wallet" and takes no click; only a reload gives an enabled connect
    button back. *)
Theorem disconnect_keeps_minted (w : World) (a : option string)
    (c : option Chain) :
  hasMinted w = true ->
  let gone := step' (AccountChanged false a c) w in
  hasMinted gone = true
  /\ getButtonText findChainByName gone = "Connect Wallet"
  /\ primaryAction findChainByName gone = None
  /\ (forall o, step' (Click o) gone = gone)
  /\ hasMinted (step' Reloaded gone) = false
  /\ primaryAction findChainByName (step' Reloaded gone)
     = Some HandleConnectWallet.
Proof.
  intros Hm gone.
  assert (Hg : gone = withAccount false a c w).
  { subst gone. simpl. unfold mintedEffect. simpl.
    rewrite andb_false_r. now destruct (_ && _). }
  rewrite Hg. simpl. unfold remount, mintedEffect. simpl.
  rewrite andb_false_r.
  unfold primaryAction, buttonDisabled, getButtonText, getButtonAction. simpl.
  rewrite Hm. repeat split.
Qed.

(** X11. The limit is per wallet. After wallet [a] has minted, a change
    to another wallet [b] makes the mint flag what the store held for [b]
    before, whatever the two address strings are, and a change back to [a]
    sets it again. *)
Theorem wallet_switch_rereads_flag (w : World) (a b : string)
    (ch ch' : option Chain) :
  isConnected w = true -> address w = Some a -> truthy (Some a) = true ->
  hasMinted w = false ->
  b <> a -> truthy (Some b) = true ->
  let minted := snd (handleMint contractAddress Resolves w) in
  let other := step' (AccountChanged true (Some b) ch) minted in
  let back := step' (AccountChanged true (Some a) ch') other in
  mintedKey contractAddress (Some b) <> mintedKey contractAddress (Some a)
  /\ hasMinted other
     = storedFlag (localStorage w) (mintedKey contractAddress (Some b))
  /\ hasMinted back = true.
Proof.
  intros Hc Ha Hta Hm Hne Htb minted other back.
  assert (Hk : mintedKey contractAddress (Some b)
               <> mintedKey contractAddress (Some a)).
  { intros H. apply Hne. now apply mintedKey_wallet_inj in H. }
  assert (Hmin : minted
    = setIsLoading false
        (withTimers (timers w ++ [{| delay := 5000; callback := HideSuccess |}])
           (record (CallSetTimeout 5000)
              (setSuccess true
                 (setHasMinted true
                    (withStorage
                       (<[mintedKey contractAddress (Some a) := "true"]>
                          (localStorage w))
                       (record
                          (CallSetItem (mintedKey contractAddress (Some a)) "true")
                          (record (CallDelay 2000)
                             (setError None (setIsLoading true w)))))))))).
  { subst minted.
    rewrite handleMint_resolves
      by (apply mintGuard_false; [assumption | now rewrite Ha | assumption]).
    now rewrite Ha. }
  assert (Hother : other
    = setHasMinted
        (storedFlag (localStorage minted) (mintedKey contractAddress (Some b)))
        (withAccount true (Some b) ch minted)).
  { subst other. apply step_to_other_wallet with (a := a);
      [now rewrite Hmin | exact Hne | exact Htb]. }
  assert (Hback : back
    = setHasMinted
        (storedFlag (localStorage other) (mintedKey contractAddress (Some a)))
        (withAccount true (Some a) ch' other)).
  { subst back. apply step_to_other_wallet with (a := b);
      [now rewrite Hother | intros H; now apply Hne | exact Hta]. }
  split; [exact Hk|]. split.
  - rewrite Hother, Hmin. simpl.
    apply storedFlag_insert_ne. intros H. now apply Hk.
  - rewrite Hback, Hother, Hmin. simpl. apply storedFlag_insert_eq.
Qed.

End WalletFacts.

Lemma disconnect_keeps_minted_witness :
  let minted := step appContract knownChains (Click Resolves) (aliceOnBase 10000000) in
  let gone := step appContract knownChains (AccountChanged false None None) minted in
  getButtonText knownChains gone = "Connect Wallet"
  /\ primaryAction knownChains gone = None
  /\ primaryAction knownChains (step appContract knownChains Reloaded gone)
     = Some HandleConnectWallet.
Proof.
  destruct (disconnect_keeps_minted appContract knownChains
              (step appContract knownChains (Click Resolves) (aliceOnBase 10000000))
              None None eq_refl) as (_ & H1 & H2 & _ & _ & H3).
  split; [exact H1|]. split; [exact H2 | exact H3].
Defined.

Lemma wallet_switch_rereads_flag_witness :
  let minted := snd (handleMint appContract Resolves (aliceOnBase 10000000)) in
  let other := step appContract knownChains
                 (AccountChanged true (Some bob) None) minted in
  hasMinted other = false
  /\ hasMinted (step appContract knownChains
                  (AccountChanged true (Some alice) None) other) = true.
Proof.
  assert (Hne : bob <> alice) by discriminate.
  destruct (wallet_switch_rereads_flag appContract knownChains
              (aliceOnBase 10000000) alice bob None None
              eq_refl eq_refl eq_refl eq_refl Hne eq_refl) as (_ & H1 & H2).
  split; [exact H1 | exact H2].
Defined.

(** ** What every sequence of events preserves *)

Section RunFacts.

Variable contractAddress : string.
Variable findChainByName : ChainName -> option Chain.

Abbreviation runHandler' := (runHandler contractAddress findChainByName).
Abbreviation step' := (step contractAddress findChainByName).
Abbreviation run' := (run contractAddress findChainByName).

Lemma mintGuard_false_inv (w : World) :
  mintGuard w = false -> truthy (address w) = true.
Proof.
  unfold mintGuard.
  destruct (isConnected w), (truthy (address w)), (hasMinted w);
    simpl; intros H; try discriminate H; reflexivity.
Qed.

Lemma switch_message_known (c : ChainName) :
  handlerMessage (Some ("Failed to switch to " +:+ chainNameStr c)) = true.
Proof. destruct c; reflexivity. Qed.

(** Every exit of every handler, by what it leaves in the flags, the
    error, the timers and the store. *)
Lemma runHandler_summary (h : Handler) (o : Outcome) (w : World) :
  let w' := snd (runHandler' h o w) in
  (isLoading w' = false \/ isLoading w' = isLoading w)
  /\ (error w' = error w \/ handlerMessage (error w') = true)
  /\ (success w' = success w /\ timers w' = timers w
      \/ success w' = true
         /\ timers w' = (timers w ++ [hideSuccessTimer])%list)
  /\ (localStorage w' = localStorage w /\ hasMinted w' = hasMinted w
      \/ truthy (address w) = true
         /\ localStorage w'
            = <[mintedKey contractAddress (address w) := "true"]>
                (localStorage w)
         /\ hasMinted w' = true).
Proof.
  intros w'. subst w'. destruct h; simpl.
  - destruct (isSDKLoaded w) eqn:Hs.
    + destruct o; [rewrite handleConnectWallet_resolves by exact Hs
                  |rewrite handleConnectWallet_rejects by exact Hs];
        simpl; auto 10.
    + rewrite handleConnectWallet_sdk_missing by exact Hs. simpl; auto 10.
  - destruct (targetChain findChainByName w) as [tc|] eqn:Ht.
    + destruct o; [rewrite (handleSwitchNetwork_resolves _ _ _ Ht)
                  |rewrite (handleSwitchNetwork_rejects _ _ _ Ht)];
        simpl; [auto 10|].
      pose proof (switch_message_known (selectedChain w)). auto 10.
    + rewrite handleSwitchNetwork_no_target by exact Ht. simpl; auto 10.
  - destruct (mintGuard w) eqn:Hg.
    + rewrite handleMint_guarded by exact Hg. simpl; auto 10.
    + pose proof (mintGuard_false_inv w Hg) as Ha.
      destruct o; [rewrite handleMint_resolves by exact Hg
                  |rewrite handleMint_rejects by exact Hg];
        simpl; auto 10.
Qed.

(** The effect writes the mint flag and nothing else. *)
Lemma mintedEffect_fields (w : World) :
  let w' := mintedEffect contractAddress w in
  isLoading w' = isLoading w /\ error w' = error w
  /\ success w' = success w /\ timers w' = timers w
  /\ localStorage w' = localStorage w.
Proof. unfold mintedEffect. destruct (_ && _); repeat split. Qed.

Lemma step_idle (e : Event) (w : World) :
  isLoading w = false -> isLoading (step' e w) = false.
Proof.
  intros Hl. destruct e as [o|c|conn a c|b|b| |]; simpl.
  - destruct (buttonDisabled findChainByName w); [exact Hl|].
    destruct (runHandler_summary (getButtonAction findChainByName w) o w)
      as ([H|H] & _); [exact H | now rewrite H].
  - now rewrite Hl.
  - destruct (_ && _); [exact Hl|].
    now destruct (mintedEffect_fields (withAccount conn a c w)) as (-> & _).
  - exact Hl.
  - exact Hl.
  - destruct (timers w) as [|t ts]; [exact Hl|]. now destruct (callback t).
  - unfold remount.
    now destruct (mintedEffect_fields
                    (firstRender (isSDKLoaded w) (isConnected w) (address w)
                       (chain w) (usdcBalance w) (localStorage w) (calls w)))
      as (-> & _).
Qed.

(** X13. No event leaves the component stuck in flight: from an idle
    state every sequence of events ends idle, so the network buttons always
    take the next selection. *)
Theorem idle_stays_idle (es : list Event) (w : World) :
  isLoading w = false ->
  isLoading (run' es w) = false
  /\ forall c, selectedChain (step' (SelectChain c) (run' es w)) = c.
Proof.
  intros Hl.
  assert (H : isLoading (run' es w) = false).
  { revert w Hl. induction es as [|e es IH]; intros w Hl; simpl; [exact Hl|].
    apply IH, step_idle, Hl. }
  split; [exact H|]. intros c. simpl. now rewrite H.
Qed.

Lemma handlerMessage_banner (w : World) :
  handlerMessage (error w) = true ->
  errorBanner w = error w.
Proof.
  unfold errorBanner, truthy, handlerMessage.
  destruct (error w) as [s|]; [|reflexivity].
  destruct (String.eqb_spec s ""); [subst; discriminate | reflexivity].
Qed.

Lemma step_error (e : Event) (w : World) :
  handlerMessage (error w) = true -> handlerMessage (error (step' e w)) = true.
Proof.
  intros He. destruct e as [o|c|conn a c|b|b| |]; simpl.
  - destruct (buttonDisabled findChainByName w); [exact He|].
    destruct (runHandler_summary (getButtonAction findChainByName w) o w)
      as (_ & [H|H] & _); [now rewrite H | exact H].
  - now destruct (isLoading w).
  - destruct (_ && _); [exact He|].
    now destruct (mintedEffect_fields (withAccount conn a c w)) as (_ & -> & _).
  - exact He.
  - exact He.
  - destruct (timers w) as [|t ts]; [exact He|]. now destruct (callback t).
  - unfold remount.
    now destruct (mintedEffect_fields
                    (firstRender (isSDKLoaded w) (isConnected w) (address w)
                       (chain w) (usdcBalance w) (localStorage w) (calls w)))
      as (_ & -> & _).
Qed.

(** X14. The error line only ever shows one of the handlers' five
    messages: from a state whose error is one of them (or none), every
    sequence of events ends in such a state, and the line on screen is the
    stored message itself. *)
Theorem errors_are_handler_messages (es : list Event) (w : World) :
  handlerMessage (error w) = true ->
  handlerMessage (error (run' es w)) = true
  /\ errorBanner (run' es w) = error (run' es w).
Proof.
  intros He.
  assert (H : handlerMessage (error (run' es w)) = true).
  { revert w He. induction es as [|e es IH]; intros w He; simpl; [exact He|].
    apply IH, step_error, He. }
  split; [exact H | now apply handlerMessage_banner].
Qed.

Lemma step_store (e : Event) (w : World) (k : string) :
  localStorage (step' e w) !! k = localStorage w !! k
  \/ localStorage (step' e w) !! k = Some "true"
     /\ exists a, truthy a = true /\ k = mintedKey contractAddress a.
Proof.
  destruct e as [o|c|conn a c|b|b| |]; simpl; auto.
  - destruct (buttonDisabled findChainByName w); [now left|].
    destruct (runHandler_summary (getButtonAction findChainByName w) o w)
      as (_ & _ & _ & [[-> _]|(Ha & -> & _)]); [now left|].
    destruct (decide (mintedKey contractAddress (address w) = k)) as [<-|Hne].
    + right. rewrite lookup_insert_eq. eauto.
    + left. now rewrite lookup_insert_ne.
  - now destruct (isLoading w); left.
  - destruct (_ && _); [now left|].
    now destruct (mintedEffect_fields (withAccount conn a c w))
      as (_ & _ & _ & _ & ->); left.
  - destruct (timers w) as [|t ts]; [now left|]. now destruct (callback t); left.
  - unfold remount.
    now destruct (mintedEffect_fields
                    (firstRender (isSDKLoaded w) (isConnected w) (address w)
                       (chain w) (usdcBalance w) (localStorage w) (calls w)))
      as (_ & _ & _ & _ & ->); left.
Qed.

(** X15. The component only ever adds to the store. After any sequence of
    events each key holds what it held before, or holds "true" and is the
    mint key of this contract for some present address. Nothing is removed,
    no other value is written, and no other key is touched. *)
Theorem store_only_gains_mint_keys (es : list Event) (w : World) (k : string) :
  localStorage (run' es w) !! k = localStorage w !! k
  \/ localStorage (run' es w) !! k = Some "true"
     /\ exists a, truthy a = true /\ k = mintedKey contractAddress a.
Proof.
  revert w. induction es as [|e es IH]; intros w; simpl; [now left|].
  destruct (IH (step' e w)) as [H|H]; [|now right].
  rewrite H. apply step_store.
Qed.

End RunFacts.

Section Provenance.

Variable contractAddress : string.
Variable findChainByName : ChainName -> option Chain.

Lemma mintedEffect_fromStore (w : World) :
  mintedFromStore contractAddress w -> mintedFromStore contractAddress (mintedEffect contractAddress w).
Proof.
  unfold mintedEffect, mintedFromStore.
  destruct (truthy (address w) && isConnected w) eqn:Hc; simpl; [|auto].
  intros _ H. apply andb_true_iff in Hc as [Ha _]. eauto.
Qed.

Lemma step_fromStore (e : Event) (w : World) :
  mintedFromStore contractAddress w ->
  mintedFromStore contractAddress (step contractAddress findChainByName e w).
Proof.
  intros J. destruct e as [o|c|conn a c|b|b| |]; simpl.
  - destruct (buttonDisabled findChainByName w); [exact J|].
    destruct (runHandler_summary contractAddress findChainByName
                (getButtonAction findChainByName w) o w)
      as (_ & _ & _ & [[Hs Hm]|(Ha & Hs & Hm)]);
      unfold mintedFromStore; rewrite Hs.
    + rewrite Hm. exact J.
    + intros _. exists (address w). split; [exact Ha|].
      apply storedFlag_insert_eq.
  - now destruct (isLoading w).
  - destruct (_ && _); [exact J|]. now apply mintedEffect_fromStore.
  - exact J.
  - exact J.
  - destruct (timers w) as [|t ts]; [exact J|]. now destruct (callback t).
  - unfold remount. apply mintedEffect_fromStore. intros H. discriminate H.
Qed.

(** X16. "Already minted" always has a cause in the store: in every state
    a mounted component can reach, the mint flag is set only if the store
    holds the value "true" under this contract's key for some present
    address. *)
Theorem minted_flag_has_stored_cause (sdk conn : bool) (a : option string)
    (c : option Chain) (b : option Balance) (store : gmap string string)
    (es : list Event) :
  let w := run contractAddress findChainByName es
             (mount contractAddress sdk conn a c b store) in
  hasMinted w = true ->
  exists a', truthy a' = true
    /\ storedFlag (localStorage w) (mintedKey contractAddress a') = true.
Proof.
  intros w. subst w.
  assert (H0 : mintedFromStore contractAddress
                 (mount contractAddress sdk conn a c b store)).
  { unfold mount. apply mintedEffect_fromStore. intros H. discriminate H. }
  generalize dependent (mount contractAddress sdk conn a c b store).
  induction es as [|e es IH]; intros w H0; simpl; [exact H0|].
  apply IH, step_fromStore, H0.
Qed.

End Provenance.

Lemma minted_flag_has_stored_cause_witness :
  exists a', truthy a' = true
    /\ storedFlag
         (localStorage
            (run appContract knownChains
               [Click Resolves; AccountChanged false None None]
               (mount appContract true true (Some alice)
                  (Some {| chain_id := 8453; chain_name := "Base" |})
                  (Some {| value := 10000000; decimals := 6 |}) ∅)))
         (mintedKey appContract a') = true.
Proof.
  apply (minted_flag_has_stored_cause appContract knownChains true true
           (Some alice) (Some {| chain_id := 8453; chain_name := "Base" |})
           (Some {| value := 10000000; decimals := 6 |}) ∅
           [Click Resolves; AccountChanged false None None]).
  reflexivity.
Defined.

Lemma idle_stays_idle_witness :
  isLoading (run appContract knownChains
               [Click Rejects; SelectChain ethereum; Click Rejects]
               (aliceOnBase 10000000)) = false.
Proof.
  destruct (idle_stays_idle appContract knownChains
              [Click Rejects; SelectChain ethereum; Click Rejects]
              (aliceOnBase 10000000) eq_refl) as [H _].
  exact H.
Defined.

Lemma errors_are_handler_messages_witness :
  let w := run appContract knownChains
             [Click Rejects; SelectChain ethereum; Click Rejects]
             (aliceOnBase 10000000) in
  handlerMessage (error w) = true /\ errorBanner w = error w.
Proof.
  exact (errors_are_handler_messages appContract knownChains
           [Click Rejects; SelectChain ethereum; Click Rejects]
           (aliceOnBase 10000000) eq_refl).
Defined.

(** ** The manifest *)

(** X17. Every URL of the manifest is the home URL followed by a fixed
    path. The home URL is [NEXT_PUBLIC_URL] when that is set and not empty;
    otherwise it is "https://" and the Vercel production host, an empty
    [NEXT_PUBLIC_URL] counting as unset, and with no host either it is
    "https://undefined". *)
Theorem manifest_urls (title : string) (pub host : option string) :
  let f := Manifest.frame (Manifest.GET title pub host) in
  (Manifest.iconUrl f = Manifest.homeUrl f +:+ "/icon.png"
   /\ Manifest.imageUrl f = Manifest.homeUrl f +:+ "/og.png"
   /\ Manifest.webhookUrl f = Manifest.homeUrl f +:+ "/api/webhook"
   /\ Manifest.splashImageUrl f = Manifest.homeUrl f +:+ "/splash.png")
  /\ (forall u, pub = Some u -> u <> "" -> Manifest.homeUrl f = u)
  /\ (pub = None \/ pub = Some "" ->
      Manifest.homeUrl f = "https://" +:+ splice host
      /\ (host = None -> Manifest.homeUrl f = "https://undefined")).
Proof.
  intros f. subst f. simpl. split; [repeat split|]. split.
  - intros u -> Hu. unfold Manifest.appUrl. simpl.
    destruct (String.eqb_spec u ""); [contradiction | reflexivity].
  - intros [->| ->]; unfold Manifest.appUrl; simpl;
      (split; [reflexivity | now intros ->]).
Qed.

Lemma manifest_urls_witness :
  Manifest.homeUrl
    (Manifest.frame (Manifest.GET "App" (Some "https://sea-seawell.vercel.app") None))
  = "https://sea-seawell.vercel.app"
  /\ Manifest.iconUrl (Manifest.frame (Manifest.GET "App" (Some "") None))
     = "https://undefined/icon.png".
Proof.
  destruct (manifest_urls "App" (Some "https://sea-seawell.vercel.app") None)
    as (_ & H1 & _).
  destruct (manifest_urls "App" (Some "") None) as ((H2 & _) & _ & H3).
  split; [apply H1; [reflexivity | discriminate]|].
  rewrite H2. destruct (H3 (or_intror eq_refl)) as [_ H4].
  now rewrite (H4 eq_refl).
Defined.

(** * Renders before the effect and handlers in flight *)

Section LiveFacts.

Variable contractAddress : string.
Variable findChainByName : ChainName -> option Chain.

Abbreviation live := (liveStep contractAddress findChainByName).
Abbreviation liveRun' := (liveRun contractAddress findChainByName).

(** The two halves of a handler make up the handler. *)
Lemma start_then_settle (h : Handler) (o : Outcome) (w : World) :
  runHandler contractAddress findChainByName h o w
  = match startHandler findChainByName h w with
    | (w1, None) => (Normal tt, w1)
    | (w1, Some k) => settleHandler contractAddress k o w1
    end.
Proof.
  destruct h; simpl.
  - unfold handleConnectWallet. destruct (isSDKLoaded w); simpl; [|reflexivity].
    now destruct o.
  - unfold handleSwitchNetwork.
    destruct (targetChain findChainByName w) as [tc|]; [|reflexivity].
    now destruct o.
  - unfold handleMint. destruct (mintGuard w); [reflexivity|].
    now destruct o.
Qed.

(** One event of [step] is the events of [liveEvents], one after the
    other, on a settled component. *)
Lemma step_as_live_events (e : Event) (w : World) :
  liveRun' (liveEvents e w) (settled w)
  = settled (step contractAddress findChainByName e w).
Proof.
  destruct e as [o|c|conn a c|b|b| |]; simpl.
  - destruct (buttonDisabled findChainByName w); [reflexivity|].
    rewrite start_then_settle.
    destruct (startHandler findChainByName (getButtonAction findChainByName w) w)
      as [w1 [k|]]; reflexivity.
  - now destruct (isLoading w).
  - now destruct (option_string_eqb a (address w) && Bool.eqb conn (isConnected w)).
  - reflexivity.
  - reflexivity.
  - now destruct (timers w).
  - reflexivity.
Qed.

(** What the first half of a handler leaves alone. *)
Lemma startHandler_frame (h : Handler) (w : World) :
  let w1 := fst (startHandler findChainByName h w) in
  localStorage w1 = localStorage w /\ hasMinted w1 = hasMinted w
  /\ isConnected w1 = isConnected w /\ address w1 = address w
  /\ success w1 = success w /\ timers w1 = timers w.
Proof.
  destruct h; simpl.
  - destruct (isSDKLoaded w); repeat split.
  - destruct (targetChain findChainByName w); repeat split.
  - destruct (mintGuard w); repeat split.
Qed.

(** What the second half of a handler does to the store, the mint flag,
    the success flag and the timers. *)
Lemma settleHandler_cases (k : InFlight) (o : Outcome) (w : World) :
  let w' := snd (settleHandler contractAddress k o w) in
  isConnected w' = isConnected w /\ address w' = address w
  /\ (localStorage w' = localStorage w /\ hasMinted w' = hasMinted w
      /\ success w' = success w /\ timers w' = timers w
      \/ exists a, k = AwaitMint a /\ o = Resolves
         /\ localStorage w'
            = <[mintedKey contractAddress a := "true"]> (localStorage w)
         /\ hasMinted w' = true /\ success w' = true
         /\ timers w' = (timers w ++ [hideSuccessTimer])%list).
Proof.
  destruct k as [|sel|a], o; simpl; repeat split; auto.
  right. exists a. repeat split.
Qed.

Lemma live_storage (e : LiveEvent) (l : Live) (k : string) :
  storedFlag (localStorage (shown l)) k = true ->
  storedFlag (localStorage (shown (live e l))) k = true.
Proof.
  intros H. destruct e as [|i o|c|conn a c| |b|b| |sdk conn a c b]; simpl.
  - destruct (buttonDisabled findChainByName (shown l)); [exact H|].
    pose proof (startHandler_frame
                  (getButtonAction findChainByName (shown l)) (shown l)) as Hf.
    destruct (startHandler findChainByName _ (shown l)) as [w1 k'].
    simpl in *. destruct Hf as (-> & _). exact H.
  - destruct (inFlight l !! i) as [k'|]; [|exact H]. simpl.
    destruct (settleHandler_cases k' o (shown l))
      as (_ & _ & [(-> & _)|(a & _ & _ & -> & _)]); [exact H|].
    now apply storedFlag_insert_true.
  - now destruct (isLoading (shown l)).
  - exact H.
  - destruct (effectPending l); [|exact H]. simpl.
    now rewrite mintedEffect_storage.
  - exact H.
  - exact H.
  - destruct (timers (shown l)) as [|t ts]; [exact H|]. now destruct (callback t).
  - exact H.
Qed.

Lemma liveRun_storage (es : list LiveEvent) (l : Live) (k : string) :
  storedFlag (localStorage (shown l)) k = true ->
  storedFlag (localStorage (shown (liveRun' es l))) k = true.
Proof.
  revert l. induction es as [|e es IH]; intros l H; simpl; [exact H|].
  apply IH, live_storage, H.
Qed.

Lemma live_sync (e : LiveEvent) (l : Live) :
  liveSync contractAddress l -> liveSync contractAddress (live e l).
Proof.
  intros J. destruct e as [|i o|c|conn a c| |b|b| |sdk conn a c b]; simpl.
  - destruct (buttonDisabled findChainByName (shown l)); [exact J|].
    pose proof (startHandler_frame
                  (getButtonAction findChainByName (shown l)) (shown l)) as Hf.
    destruct (startHandler findChainByName _ (shown l)) as [w1 k'].
    simpl in Hf. destruct Hf as (Hs & Hm & Hc & Ha & _).
    intros Hp. unfold mintedSync. simpl in *. rewrite Hs, Hm, Hc, Ha.
    exact (J Hp).
  - destruct (inFlight l !! i) as [k'|]; [|exact J].
    intros Hp. simpl in *.
    destruct (settleHandler_cases k' o (shown l))
      as (Hc & Ha & [(Hs & Hm & _)|(a & _ & _ & _ & Hm & _)]).
    + unfold mintedSync. rewrite Hc, Ha, Hs, Hm. exact (J Hp).
    + intros _ _ _. exact Hm.
  - destruct (isLoading (shown l)); [exact J|]. exact J.
  - intros Hp. simpl in *. apply orb_false_iff in Hp as [Hp Hd].
    apply negb_false_iff, andb_true_iff in Hd as [Ha Hc].
    apply option_string_eqb_eq in Ha. apply Bool.eqb_prop in Hc.
    subst a conn. exact (J Hp).
  - destruct (effectPending l); [|exact J].
    intros _. simpl. apply mintedEffect_sync.
  - exact J.
  - exact J.
  - destruct (timers (shown l)) as [|t ts]; [exact J|]. now destruct (callback t).
  - intros Hp. discriminate Hp.
Qed.

Lemma liveRun_sync (es : list LiveEvent) (l : Live) :
  liveSync contractAddress l -> liveSync contractAddress (liveRun' es l).
Proof.
  revert l. induction es as [|e es IH]; intros l J; simpl; [exact J|].
  apply IH, live_sync, J.
Qed.

(** C2, amended. A stored mint flag that is true stays true: no event of
    the component, with handlers in flight and effects pending, sets it
    back. After a mint that succeeded for a wallet, every later render for
    that wallet whose effect has run, connected and on the selected chain,
    is in state AlreadyMinted, whatever happened in between, the expiry of
    the success message and a reload of the page included. *)
Theorem stored_flag_persists (es : list LiveEvent) (l : Live) :
  (forall k, storedFlag (localStorage (shown l)) k = true ->
     storedFlag (localStorage (shown (liveRun' es l))) k = true)
  /\ (forall i a,
      inFlight l !! i = Some (AwaitMint (Some a)) -> truthy (Some a) = true ->
      let minted := live (Settled i Resolves) l in
      let later := liveRun' es minted in
      hasMinted (shown minted) = true
      /\ success (shown (live HideTimerFired minted)) = false
      /\ storedFlag (localStorage (shown later))
           (mintedKey contractAddress (Some a)) = true
      /\ (effectPending later = false ->
          isConnected (shown later) = true ->
          address (shown later) = Some a ->
          chain_id <$> chain (shown later)
          = chain_id <$> targetChain findChainByName (shown later) ->
          uiState findChainByName (shown later) = AlreadyMinted
          /\ getButtonText findChainByName (shown later) = "Already Minted")).
Proof.
  split; [intros k; apply liveRun_storage|].
  intros i a Hi Ha minted later.
  assert (Hmin : shown minted
                 = snd (settleHandler contractAddress (AwaitMint (Some a))
                          Resolves (shown l))).
  { subst minted. simpl. now rewrite Hi. }
  assert (Hflag : storedFlag (localStorage (shown later))
                    (mintedKey contractAddress (Some a)) = true).
  { subst later. apply liveRun_storage. rewrite Hmin. simpl.
    apply storedFlag_insert_eq. }
  assert (Hsync : liveSync contractAddress later).
  { subst later. apply liveRun_sync. intros _ _ _ _. now rewrite Hmin. }
  split; [now rewrite Hmin|]. split; [|split; [exact Hflag|]].
  - simpl. rewrite Hmin. simpl.
    destruct (timers (shown l)) as [|t ts]; simpl; [reflexivity|].
    now destruct (callback t).
  - intros Hp Hc Haddr Hids.
    assert (Hm : hasMinted (shown later) = true).
    { apply (Hsync Hp); [exact Hc | now rewrite Haddr | now rewrite Haddr]. }
    assert (Hu : uiState findChainByName (shown later) = AlreadyMinted).
    { apply optZ_eqb_eq in Hids. unfold targetChain in Hids.
      unfold uiState, deriveState. now rewrite Hc, Hids, Hm. }
    split; [exact Hu|]. rewrite getButtonText_stateText, Hu. reflexivity.
Qed.


Lemma live_successPending (e : LiveEvent) (l : Live) :
  successPending l -> successPending (live e l).
Proof.
  unfold successPending. intros J.
  destruct e as [|i o|c|conn a c| |b|b| |sdk conn a c b]; simpl.
  - destruct (buttonDisabled findChainByName (shown l)); [exact J|].
    pose proof (startHandler_frame
                  (getButtonAction findChainByName (shown l)) (shown l)) as Hf.
    destruct (startHandler findChainByName _ (shown l)) as [w1 k'].
    simpl in *. destruct Hf as (_ & _ & _ & _ & -> & ->). exact J.
  - destruct (inFlight l !! i) as [k'|]; [|exact J]. simpl.
    destruct (settleHandler_cases k' o (shown l))
      as (_ & _ & [(_ & _ & -> & ->)|(a & _ & _ & _ & _ & _ & ->)]);
      [exact J|].
    intros _. now destruct (timers (shown l)).
  - now destruct (isLoading (shown l)).
  - exact J.
  - destruct (effectPending l); [|exact J]. simpl.
    now destruct (mintedEffect_fields contractAddress (shown l))
      as (_ & _ & -> & -> & _).
  - exact J.
  - exact J.
  - destruct (timers (shown l)) as [|t ts] eqn:Ht.
    + rewrite Ht. exact J.
    + destruct (callback t). simpl. discriminate.
  - discriminate.
Qed.

Lemma liveRun_successPending (es : list LiveEvent) (l : Live) :
  successPending l -> successPending (liveRun' es l).
Proof.
  revert l. induction es as [|e es IH]; intros l J; simpl; [exact J|].
  apply IH, live_successPending, J.
Qed.

(** X12. The success message never sticks. In every state a mounted
    component can reach, with renders shown before their effect and
    handlers in flight, a timer that hides the message is pending whenever
    the message shows, and when that timer fires the message is taken off
    the screen. *)
Theorem success_message_timed (sdk conn : bool) (a : option string)
    (c : option Chain) (b : option Balance) (store : gmap string string)
    (es : list LiveEvent) :
  let l := liveRun' es (liveMount sdk conn a c b store) in
  success (shown l) = true ->
  timers (shown l) <> []
  /\ success (shown (live HideTimerFired l)) = false.
Proof.
  intros l Hs.
  assert (H : successPending l).
  { subst l. apply liveRun_successPending. intros H. discriminate H. }
  split; [exact (H Hs)|].
  simpl. destruct (timers (shown l)) as [|t ts] eqn:Ht.
  - now destruct (H Hs).
  - now destruct (callback t).
Qed.

End LiveFacts.

Lemma stored_flag_persists_witness :
  let later :=
    liveRun appContract knownChains
      [Settled 0 Resolves; HideTimerFired;
       PageReloaded true true (Some alice)
         (Some {| chain_id := 8453; chain_name := "Base" |})
         (Some {| value := 25000000; decimals := 6 |});
       EffectRan]
      aliceMinting in
  success (shown later) = false
  /\ storedFlag (localStorage (shown later)) (mintedKey appContract (Some alice))
     = true
  /\ uiState knownChains (shown later) = AlreadyMinted
  /\ getButtonText knownChains (shown later) = "Already Minted".
Proof.
  intros later.
  destruct (stored_flag_persists appContract knownChains
              [HideTimerFired;
               PageReloaded true true (Some alice)
                 (Some {| chain_id := 8453; chain_name := "Base" |})
                 (Some {| value := 25000000; decimals := 6 |});
               EffectRan]
              aliceMinting) as [_ H].
  destruct (H 0%nat alice eq_refl eq_refl) as (_ & _ & Hflag & Hlater).
  destruct (Hlater eq_refl eq_refl eq_refl eq_refl) as [Hu Ht].
  split; [reflexivity|]. split; [exact Hflag|]. split; [exact Hu | exact Ht].
Defined.

(** After a mint that succeeded, a render can still derive ReadyToMint.
    Alice has minted and loads the page again: the render committed before
    the effect has her flag in the store, her wallet connected on the
    selected chain, and offers the mint anew. *)
Lemma reload_renders_before_effect :
  let w := shown aliceReloaded in
  effectPending aliceReloaded = true
  /\ storedFlag (localStorage w) (mintedKey appContract (Some alice)) = true
  /\ isConnected w = true /\ address w = Some alice
  /\ chain_id <$> chain w = chain_id <$> targetChain knownChains w
  /\ uiState knownChains w = ReadyToMint
  /\ uiState knownChains w <> AlreadyMinted
  /\ getButtonText knownChains w = "Mint NFT"
  /\ primaryAction knownChains w = Some HandleMint.
Proof. repeat split. discriminate. Qed.

Lemma success_message_timed_witness :
  let l := liveRun appContract knownChains bobMintingAfterAlice
             (liveMount true true (Some alice)
                (Some {| chain_id := 8453; chain_name := "Base" |})
                (Some {| value := 25000000; decimals := 6 |}) ∅) in
  inFlight l = [AwaitMint (Some bob)]
  /\ success (shown l) = true
  /\ timers (shown l) <> []
  /\ success (shown (liveStep appContract knownChains HideTimerFired l)) = false.
Proof.
  intros l.
  assert (Hs : success (shown l) = true) by (vm_compute; reflexivity).
  destruct (success_message_timed appContract knownChains true true
              (Some alice) (Some {| chain_id := 8453; chain_name := "Base" |})
              (Some {| value := 25000000; decimals := 6 |}) ∅
              bobMintingAfterAlice Hs) as [H1 H2].
  split; [vm_compute; reflexivity|]. split; [exact Hs|].
  split; [exact H1 | exact H2].
Defined.
